(** * Scones Unlimited workflow: the three Lambda handlers of [lambda.py]

    A shallow embedding of the three [lambda_handler] functions of
    [src/lambda.py] (serialize, classifier, threshold) together with the
    Python built-ins they call, and the properties of the handlers.

    Conventions.
    - A Python [str] is a Rocq [string]; each character is a code point
      below 256.
    - A Python [bytes] object is a [list byte].
    - A Python [float] is a binary64 number, [spec_float] of the standard
      library with [prec = 53] and [emax = 1024].
    - A Python [dict] is an association list in insertion order; every
      dict of the program has [str] keys.
    - A call either returns a value or raises: [Result]. *)

From Stdlib Require Import ZArith NArith List String Ascii Bool Lia.
From Stdlib Require Import Strings.Byte SpecFloat DecimalString.
Import ListNotations.

Set Warnings "-register-all".

Local Open Scope string_scope.
Local Open Scope Z_scope.

(** ** Exceptions *)

Inductive ExnKind : Type :=
| KeyError | TypeError | AttributeError | IndexError | ValueError
| OSError | ClientError | ParamValidationError.

Record PyExn : Type := mkExn { exn_kind : ExnKind; exn_msg : string }.

(** ** Python values *)

Inductive PyVal : Type :=
| PNone
| PBool (b : bool)
| PInt (z : Z)
| PFloat (f : spec_float)
| PStr (s : string)
| PBytes (b : list byte)
| PList (l : list PyVal)
| PDict (d : list (string * PyVal))
| PExc (e : PyExn).

(** Induction on values, through the lists of [PList] and [PDict]. *)
Section PyValInduction.
Variable P : PyVal -> Prop.
Hypothesis HNone : P PNone.
Hypothesis HBool : forall b, P (PBool b).
Hypothesis HInt : forall z, P (PInt z).
Hypothesis HFloat : forall f, P (PFloat f).
Hypothesis HStr : forall s, P (PStr s).
Hypothesis HBytes : forall b, P (PBytes b).
Hypothesis HList : forall l, Forall P l -> P (PList l).
Hypothesis HDict : forall d, Forall (fun kv => P (snd kv)) d -> P (PDict d).
Hypothesis HExc : forall e, P (PExc e).

Fixpoint PyVal_nested_ind (v : PyVal) : P v :=
  match v with
  | PNone => HNone
  | PBool b => HBool b
  | PInt z => HInt z
  | PFloat f => HFloat f
  | PStr s => HStr s
  | PBytes b => HBytes b
  | PList l =>
      HList l
        ((fix all (l : list PyVal) : Forall P l :=
            match l with
            | [] => Forall_nil P
            | x :: r => Forall_cons x (PyVal_nested_ind x) (all r)
            end) l)
  | PDict d =>
      HDict d
        ((fix all (d : list (string * PyVal))
            : Forall (fun kv => P (snd kv)) d :=
            match d with
            | [] => Forall_nil _
            | kv :: r => Forall_cons kv (PyVal_nested_ind (snd kv)) (all r)
            end) d)
  | PExc e => HExc e
  end.
End PyValInduction.

(** ** Results *)

Inductive Result (A : Type) : Type :=
| Return (a : A)
| Raise (e : PyExn).

Arguments Return {A} a.
Arguments Raise {A} e.

Definition rbind {A B} (r : Result A) (k : A -> Result B) : Result B :=
  match r with
  | Return a => k a
  | Raise e => Raise e
  end.

Declare Scope result_scope.
Delimit Scope result_scope with result.
Notation "'let?' x ':=' c 'in' k" := (rbind c (fun x => k))
  (at level 10, x name, c at level 100, k at level 200) : result_scope.

(** [ [f(x) for x in l] ]: the elements are evaluated left to right and
    the first exception ends the comprehension. *)
Fixpoint list_comprehension {A B} (f : A -> Result B) (l : list A)
  : Result (list B) :=
  match l with
  | [] => Return []
  | x :: rest =>
      match f x with
      | Raise e => Raise e
      | Return y =>
          match list_comprehension f rest with
          | Raise e => Raise e
          | Return ys => Return (y :: ys)
          end
      end
  end.

(** ** Characters and strings *)

Definition code (c : ascii) : Z := Z.of_N (N_of_ascii c).

Definition is_digit (c : ascii) : bool := (48 <=? code c) && (code c <=? 57).

Definition digit_val (c : ascii) : Z := code c - 48.

Definition to_lower (c : ascii) : ascii :=
  if (65 <=? code c) && (code c <=? 90)
  then ascii_of_N (N_of_ascii c + 32) else c.

Fixpoint str_lower (s : string) : string :=
  match s with
  | EmptyString => EmptyString
  | String c r => String (to_lower c) (str_lower r)
  end.

Fixpoint str_rev_onto (s acc : string) : string :=
  match s with
  | EmptyString => acc
  | String c r => str_rev_onto r (String c acc)
  end.

Definition str_rev (s : string) : string := str_rev_onto s EmptyString.

Fixpoint repeat_char (c : ascii) (n : nat) : string :=
  match n with
  | O => EmptyString
  | S k => String c (repeat_char c k)
  end.

Definition str_of_Z (z : Z) : string := NilZero.string_of_int (Z.to_int z).

(** [s.split(sep)] for a one-character separator: the pieces between the
    occurrences of [sep]; never the empty list. *)
Fixpoint split_acc (sep : ascii) (cur : string) (s : string) : list string :=
  match s with
  | EmptyString => [str_rev cur]
  | String c r =>
      if Ascii.eqb c sep
      then str_rev cur :: split_acc sep EmptyString r
      else split_acc sep (String c cur) r
  end.

Definition str_split (sep : ascii) (s : string) : list string :=
  split_acc sep EmptyString s.

(** [sep not in s] *)
Fixpoint no_char (sep : ascii) (s : string) : bool :=
  match s with
  | EmptyString => true
  | String c r => negb (Ascii.eqb c sep) && no_char sep r
  end.

(** ** [float(str)] *)

Definition prec : Z := 53.
Definition emax : Z := 1024.

(** Underscores may only stand between two digits; they are removed
    before the number is read. *)
Fixpoint strip_underscores (prev : ascii) (s : string) : option string :=
  match s with
  | EmptyString => if Ascii.eqb prev "_" then None else Some EmptyString
  | String c r =>
      if Ascii.eqb c "_"
      then if is_digit prev then strip_underscores c r else None
      else if Ascii.eqb prev "_" && negb (is_digit c) then None
      else option_map (String c) (strip_underscores c r)
  end.

(** White space for [float]: the ASCII white space, and the two other
    space characters below 256 (NEL and the no-break space). *)
Definition is_float_space (c : ascii) : bool :=
  ((9 <=? code c) && (code c <=? 13)) || (code c =? 32)
  || (code c =? 133) || (code c =? 160).

Fixpoint lstrip (s : string) : string :=
  match s with
  | EmptyString => EmptyString
  | String c r => if is_float_space c then lstrip r else s
  end.

Definition strip (s : string) : string :=
  str_rev (lstrip (str_rev (lstrip s))).

Definition take_sign (s : string) : bool * string :=
  match s with
  | String "-" r => (true, r)
  | String "+" r => (false, r)
  | _ => (false, s)
  end.

(** The longest prefix of digits, as the number it denotes, its length,
    and the rest of the string. *)
Fixpoint span_digits (acc : Z) (n : Z) (s : string) : Z * Z * string :=
  match s with
  | EmptyString => (acc, n, s)
  | String c r =>
      if is_digit c then span_digits (10 * acc + digit_val c) (n + 1) r
      else (acc, n, s)
  end.

(** A decimal numeral [sign digits [. digits] [e sign digits]] as
    [(negative, D, q)], denoting [D * 10 ^ q]. *)
Definition parse_decimal (s : string) : option (bool * Z * Z) :=
  let '(neg, s1) := take_sign s in
  let '(ip, ni, s2) := span_digits 0 0 s1 in
  let '(d, nf, s3) :=
    match s2 with
    | String "." r => let '(d, nd, r') := span_digits ip ni r in (d, nd - ni, r')
    | _ => (ip, 0, s2)
    end in
  if ni + nf =? 0 then None
  else
    match s3 with
    | EmptyString => Some (neg, d, - nf)
    | String c r =>
        if Ascii.eqb (to_lower c) "e" then
          let '(eneg, r1) := take_sign r in
          let '(ex, ne, r2) := span_digits 0 0 r1 in
          if ne =? 0 then None
          else
            match r2 with
            | EmptyString => Some (neg, d, (if eneg then - ex else ex) - nf)
            | _ => None
            end
        else None
    end.

Definition num_digits (z : Z) : Z :=
  match z with
  | Zpos p => Z.of_nat (Decimal.nb_digits (Pos.to_uint p))
  | _ => 0
  end.

(** [D * 10 ^ q] rounded to the nearest binary64 number, ties to even.
    Above [10 ^ 310] the result is an infinity and below [10 ^ -330] a
    zero, whatever the digits. *)
Definition float_of_decimal (neg : bool) (D q : Z) : spec_float :=
  if D <=? 0 then S754_zero neg
  else
    let mag := num_digits D + q in
    if 310 <? mag then S754_infinity neg
    else if mag <? -330 then S754_zero neg
    else if 0 <=? q then binary_normalize prec emax (if neg then - (D * 10 ^ q) else D * 10 ^ q) 0 neg
    else
      let '(mz, ez, lz) := SFdiv_core_binary prec emax D 0 (10 ^ (- q)) 0 in
      binary_round_aux prec emax neg mz ez lz.

Definition parse_inf_or_nan (s : string) : option spec_float :=
  let '(neg, r) := take_sign s in
  let l := str_lower r in
  if String.eqb l "inf" || String.eqb l "infinity" then Some (S754_infinity neg)
  else if String.eqb l "nan" then Some S754_nan
  else None.

Definition float_of_str (s : string) : option spec_float :=
  match strip_underscores zero s with
  | None => None
  | Some s1 =>
      let s2 := strip s1 in
      match parse_decimal s2 with
      | Some (neg, D, q) => Some (float_of_decimal neg D q)
      | None => parse_inf_or_nan s2
      end
  end.

Definition py_float (s : string) : Result spec_float :=
  match float_of_str s with
  | Some f => Return f
  | None => Raise (mkExn ValueError ("could not convert string to float: " ++ s))
  end.

(** ** [repr(float)]

    The shortest decimal numeral that [float] reads back as the same
    number and, among those, the nearest to it. *)

Definition sf_same (x y : spec_float) : bool :=
  match x, y with
  | S754_zero a, S754_zero b => Bool.eqb a b
  | S754_infinity a, S754_infinity b => Bool.eqb a b
  | S754_nan, S754_nan => true
  | S754_finite a m e, S754_finite b n f =>
      Bool.eqb a b && Pos.eqb m n && Z.eqb e f
  | _, _ => false
  end.

(** [m * 2 ^ e] as a fraction. *)
Definition float_ratio (m : positive) (e : Z) : Z * Z :=
  if 0 <=? e then (Zpos m * 2 ^ e, 1) else (Zpos m, 2 ^ (- e)).

(** The integer part of [num / (den * 10 ^ q)]. *)
Definition scaled_floor (num den q : Z) : Z :=
  if 0 <=? q then num / (den * 10 ^ q) else (num * 10 ^ (- q)) / den.

(** The largest [k] with [10 ^ k <= num / den]. *)
Definition decimal_exponent (num den : Z) : Z :=
  let k0 := num_digits num - num_digits den in
  if 1 <=? scaled_floor num den k0 then k0 else k0 - 1.

(** [num / den] against the midpoint of [lo * 10 ^ q] and
    [(lo + 1) * 10 ^ q]. *)
Definition cmp_midpoint (num den lo q : Z) : comparison :=
  if 0 <=? q then (2 * num) ?= ((2 * lo + 1) * 10 ^ q * den)
  else (2 * num * 10 ^ (- q)) ?= ((2 * lo + 1) * den).

(** The numeral of [p] digits for [x = num / den], if one reads back
    as [x]. *)
Definition candidate (x : spec_float) (num den k p : Z) : option (Z * Z) :=
  let q := k - p + 1 in
  let lo := scaled_floor num den q in
  let hi := lo + 1 in
  match sf_same (float_of_decimal false lo q) x,
        sf_same (float_of_decimal false hi q) x with
  | true, true =>
      match cmp_midpoint num den lo q with
      | Lt => Some (lo, q)
      | Gt => Some (hi, q)
      | Eq => Some (if Z.even lo then lo else hi, q)
      end
  | true, false => Some (lo, q)
  | false, true => Some (hi, q)
  | false, false => None
  end.

Fixpoint shortest_from (fuel : nat) (x : spec_float) (num den k p : Z)
  : Z * Z :=
  match fuel with
  | O => (scaled_floor num den (k - p + 1), k - p + 1)
  | S f =>
      match candidate x num den k p with
      | Some r => r
      | None => shortest_from f x num den k (p + 1)
      end
  end.

(** Seventeen digits always read back. *)
Definition shortest_digits (m : positive) (e : Z) : Z * Z :=
  let '(num, den) := float_ratio m e in
  shortest_from 17 (S754_finite false m e) num den (decimal_exponent num den) 1.

Fixpoint drop_zeros (s : string) : string :=
  match s with
  | String "0" r => drop_zeros r
  | _ => s
  end.

Definition strip_trailing_zeros (s : string) : string :=
  str_rev (drop_zeros (str_rev s)).

Fixpoint str_take (n : nat) (s : string) : string :=
  match n, s with
  | S k, String c r => String c (str_take k r)
  | _, _ => EmptyString
  end.

Fixpoint str_drop (n : nat) (s : string) : string :=
  match n, s with
  | S k, String _ r => str_drop k r
  | _, _ => s
  end.

Definition exponent_str (ex : Z) : string :=
  (if ex <? 0 then "-" else "+")
  ++ (if Z.abs ex <? 10 then "0" else EmptyString) ++ str_of_Z (Z.abs ex).

(** The digits [ds], read as [0.ds * 10 ^ decpt], in the layout of
    [repr]: an exponent when [decpt <= -4] or [decpt > 16]. *)
Definition format_repr (ds : string) (decpt : Z) : string :=
  let n := Z.of_nat (String.length ds) in
  if (decpt <=? -4) || (16 <? decpt) then
    match ds with
    | String c EmptyString => String c ("e" ++ exponent_str (decpt - 1))
    | String c r => String c ("." ++ r ++ "e" ++ exponent_str (decpt - 1))
    | EmptyString => EmptyString
    end
  else if decpt <=? 0 then
    "0." ++ repeat_char "0" (Z.to_nat (- decpt)) ++ ds
  else if n <=? decpt then
    ds ++ repeat_char "0" (Z.to_nat (decpt - n)) ++ ".0"
  else
    str_take (Z.to_nat decpt) ds ++ "." ++ str_drop (Z.to_nat decpt) ds.

Definition float_repr (x : spec_float) : string :=
  match x with
  | S754_zero s => if s then "-0.0" else "0.0"
  | S754_infinity s => if s then "-inf" else "inf"
  | S754_nan => "nan"
  | S754_finite s m e =>
      let '(D, q) := shortest_digits m e in
      let ds := str_of_Z D in
      (if s then "-" else EmptyString)
      ++ format_repr (strip_trailing_zeros ds)
                     (Z.of_nat (String.length ds) + q)
  end.

(** ** [json.dumps] *)

Definition dquote : ascii := "034"%char.

Definition hex_digit (n : Z) : ascii :=
  match String.get (Z.to_nat n) "0123456789abcdef" with
  | Some c => c
  | None => "0"%char
  end.

(** One character of a JSON string literal with [ensure_ascii]: the
    printable ASCII characters stand for themselves, all others are
    escaped. *)
Definition json_escape_char (c : ascii) : string :=
  let n := code c in
  if n =? 34 then String "\" (String dquote EmptyString)
  else if n =? 92 then "\\"
  else if n =? 10 then "\n"
  else if n =? 13 then "\r"
  else if n =? 9 then "\t"
  else if n =? 12 then "\f"
  else if n =? 8 then "\b"
  else if (32 <=? n) && (n <=? 126) then String c EmptyString
  else "\u00" ++ String (hex_digit (n / 16)) (String (hex_digit (n mod 16)) EmptyString).

Fixpoint json_escape (s : string) : string :=
  match s with
  | EmptyString => EmptyString
  | String c r => json_escape_char c ++ json_escape r
  end.

Definition json_string (s : string) : string :=
  String dquote (json_escape s ++ String dquote EmptyString).

Definition json_float (f : spec_float) : string :=
  match f with
  | S754_nan => "NaN"
  | S754_infinity s => if s then "-Infinity" else "Infinity"
  | _ => float_repr f
  end.

Fixpoint join (sep : string) (l : list string) : string :=
  match l with
  | [] => EmptyString
  | [x] => x
  | x :: rest => x ++ sep ++ join sep rest
  end.

Definition exn_kind_name (k : ExnKind) : string :=
  match k with
  | KeyError => "KeyError"
  | TypeError => "TypeError"
  | AttributeError => "AttributeError"
  | IndexError => "IndexError"
  | ValueError => "ValueError"
  | OSError => "OSError"
  | ClientError => "ClientError"
  | ParamValidationError => "ParamValidationError"
  end.

Definition type_name (v : PyVal) : string :=
  match v with
  | PNone => "NoneType"
  | PBool _ => "bool"
  | PInt _ => "int"
  | PFloat _ => "float"
  | PStr _ => "str"
  | PBytes _ => "bytes"
  | PList _ => "list"
  | PDict _ => "dict"
  | PExc e => exn_kind_name (exn_kind e)
  end.

Definition not_serializable (v : PyVal) : PyExn :=
  mkExn TypeError
    ("Object of type " ++ type_name v ++ " is not JSON serializable").

(** [json.dumps(v)] with the default separators; a [bytes] object or an
    exception anywhere in [v] is not serializable. *)
Fixpoint json_dumps (v : PyVal) : Result string :=
  match v with
  | PNone => Return "null"
  | PBool b => Return (if b then "true" else "false")
  | PInt z => Return (str_of_Z z)
  | PFloat f => Return (json_float f)
  | PStr s => Return (json_string s)
  | PBytes _ | PExc _ => Raise (not_serializable v)
  | PList l =>
      let items :=
        (fix go (l : list PyVal) : Result (list string) :=
           match l with
           | [] => Return []
           | x :: r =>
               match json_dumps x with
               | Raise e => Raise e
               | Return a =>
                   match go r with
                   | Raise e => Raise e
                   | Return b => Return (a :: b)
                   end
               end
           end) l in
      match items with
      | Raise e => Raise e
      | Return xs => Return ("[" ++ join ", " xs ++ "]")
      end
  | PDict d =>
      let items :=
        (fix go (d : list (string * PyVal)) : Result (list string) :=
           match d with
           | [] => Return []
           | (k, x) :: r =>
               match json_dumps x with
               | Raise e => Raise e
               | Return a =>
                   match go r with
                   | Raise e => Raise e
                   | Return b => Return ((json_string k ++ ": " ++ a) :: b)
                   end
               end
           end) d in
      match items with
      | Raise e => Raise e
      | Return xs => Return ("{" ++ join ", " xs ++ "}")
      end
  end.

(** The values a decoded JSON document can hold: no [bytes] and no
    exception. *)
Fixpoint is_json (v : PyVal) : bool :=
  match v with
  | PBytes _ | PExc _ => false
  | PList l => forallb is_json l
  | PDict d => forallb (fun kv => is_json (snd kv)) d
  | _ => true
  end.

(** The text of one field of a serialized dict. *)
Definition field_text (kv : string * PyVal) (item : string) : Prop :=
  exists a, json_dumps (snd kv) = Return a
            /\ item = json_string (fst kv) ++ ": " ++ a.

(** ** Subscripts, methods and [raise] *)

Fixpoint dict_get (d : list (string * PyVal)) (k : string) : option PyVal :=
  match d with
  | [] => None
  | (k', v) :: r => if String.eqb k' k then Some v else dict_get r k
  end.

(** [v[k]] for a [str] subscript [k]. *)
Definition getitem (v : PyVal) (k : string) : Result PyVal :=
  match v with
  | PDict d =>
      match dict_get d k with
      | Some x => Return x
      | None => Raise (mkExn KeyError k)
      end
  | PList _ =>
      Raise (mkExn TypeError "list indices must be integers or slices, not str")
  | PStr _ => Raise (mkExn TypeError "string indices must be integers")
  | PBytes _ =>
      Raise (mkExn TypeError "byte indices must be integers or slices, not str")
  | _ =>
      Raise (mkExn TypeError
               ("'" ++ type_name v ++ "' object is not subscriptable"))
  end.

(** [v.keys()], the keys in insertion order. *)
Definition dict_keys (v : PyVal) : Result PyVal :=
  match v with
  | PDict d => Return (PList (map (fun kv => PStr (fst kv)) d))
  | _ =>
      Raise (mkExn AttributeError
               ("'" ++ type_name v ++ "' object has no attribute 'keys'"))
  end.

(** [v.split(sep)] for a [str] argument [sep] of one character. *)
Definition py_split (v : PyVal) (sep : ascii) : Result (list string) :=
  match v with
  | PStr s => Return (str_split sep s)
  | PBytes _ =>
      Raise (mkExn TypeError "a bytes-like object is required, not 'str'")
  | _ =>
      Raise (mkExn AttributeError
               ("'" ++ type_name v ++ "' object has no attribute 'split'"))
  end.

(** [l[i]] on a list. *)
Definition list_index {A} (l : list A) (i : nat) : Result A :=
  match nth_error l i with
  | Some x => Return x
  | None => Raise (mkExn IndexError "list index out of range")
  end.

(** [a >= b] on floats; false when either is a NaN. *)
Definition float_ge (a b : spec_float) : bool := SFleb b a.

(** [a < b] on floats; false when either is a NaN. *)
Definition float_lt (a b : spec_float) : bool := SFltb a b.

(** [any(l)] *)
Definition any (l : list bool) : bool := existsb (fun b => b) l.

(** What [raise(v)] raises: [v] itself when it is an exception, and
    otherwise the interpreter's own [TypeError], in which [v] is lost. *)
Definition py_raise (v : PyVal) : PyExn :=
  match v with
  | PExc e => e
  | _ => mkExn TypeError "exceptions must derive from BaseException"
  end.

(** ** [base64.b64encode] *)

Definition b64_alphabet : list byte :=
  list_byte_of_string
    "ABCDEFGHIJKLMNOPQRSTUVWXYZabcdefghijklmnopqrstuvwxyz0123456789+/".

Definition b64_char (n : N) : byte :=
  nth (N.to_nat n) b64_alphabet "="%byte.

Fixpoint b64encode (data : list byte) : list byte :=
  match data with
  | [] => []
  | [a] =>
      let x := Byte.to_N a in
      [b64_char (x / 4); b64_char (x mod 4 * 16); "="%byte; "="%byte]
  | [a; b] =>
      let x := Byte.to_N a in
      let y := Byte.to_N b in
      [b64_char (x / 4); b64_char (x mod 4 * 16 + y / 16);
       b64_char (y mod 16 * 4); "="%byte]
  | a :: b :: c :: rest =>
      let x := Byte.to_N a in
      let y := Byte.to_N b in
      let z := Byte.to_N c in
      b64_char (x / 4) :: b64_char (x mod 4 * 16 + y / 16)
      :: b64_char (y mod 16 * 4 + z / 64) :: b64_char (z mod 64)
      :: b64encode rest
  end%N.

(** ** The world outside the handlers

    The object store and the file system are not part of the program: a
    handler reaches them through [Services], whose calls may fail in any
    way.  [W] is the state of the world and [F] the type of open files. *)

Definition M (W A : Type) : Type := W -> Result A * W.

Definition ret {W A} (a : A) : M W A := fun w => (Return a, w).

Definition bind {W A B} (m : M W A) (k : A -> M W B) : M W B :=
  fun w =>
    match m w with
    | (Return a, w') => k a w'
    | (Raise e, w') => (Raise e, w')
    end.

Definition lift {W A} (r : Result A) : M W A := fun w => (r, w).

Declare Scope py_scope.
Delimit Scope py_scope with py.
Notation "x <- c ;; k" := (bind c (fun x => k))
  (at level 61, c at next level, right associativity) : py_scope.

Class Services (W F : Type) : Type := {
  (** [s3.download_file(bucket, key, filename)] *)
  s3_download_file : PyVal -> PyVal -> string -> M W unit;
  (** [open(filename, "rb")] *)
  open_rb : string -> M W F;
  (** [f.read()] *)
  file_read : F -> M W (list byte);
  (** [f.close()] *)
  file_close : F -> W -> W;
  (** [print(...)] *)
  print : list PyVal -> W -> W
}.

(** [with open(filename, "rb") as f: body]: the file is closed whether
    [body] returns or raises, and an exception of [body] is not
    suppressed. *)
Definition with_open {W F A} `{Services W F}
  (filename : string) (body : F -> M W A) : M W A :=
  fun w =>
    match open_rb filename w with
    | (Raise e, w1) => (Raise e, w1)
    | (Return f, w1) =>
        let '(r, w2) := body f w1 in (r, file_close f w2)
    end.

Definition py_print {W F} `{Services W F} (args : list PyVal) : M W unit :=
  fun w => (Return tt, print args w).

Local Open Scope py_scope.

(** ** First function: serializeImageData *)

Module Serialize.
Section Handler.
Context {W F : Type} `{s3 : Services W F}.

Definition lambda_handler (event context : PyVal) : M W PyVal :=
  key <- lift (getitem event "s3_key");;
  bucket <- lift (getitem event "s3_bucket");;
  _ <- s3_download_file bucket key "/tmp/image.png";;
  image_data <- with_open "/tmp/image.png"
                  (fun f => data <- file_read f;; ret (b64encode data));;
  keys <- lift (dict_keys event);;
  _ <- py_print [PStr "Event:"; keys];;
  ret (PDict [("statusCode", PInt 200);
              ("body", PDict [("image_data", PBytes image_data);
                              ("s3_bucket", bucket);
                              ("s3_key", key);
                              ("inferences", PList [])])]).
End Handler.
End Serialize.

(** ** Second function: the classifier *)

Module Classifier.
Section Handler.
Context {W F : Type} `{s3 : Services W F}.

Definition lambda_handler (event context : PyVal) : M W PyVal :=
  key <- lift (getitem event "s3_key");;
  bucket <- lift (getitem event "s3_bucket");;
  _ <- s3_download_file bucket key "/tmp/image.png";;
  image_data <- with_open "/tmp/image.png"
                  (fun f => data <- file_read f;; ret (b64encode data));;
  keys <- lift (dict_keys event);;
  _ <- py_print [PStr "Event:"; keys];;
  ret (PDict [("statusCode", PInt 200);
              ("body", PDict [("image_data", PBytes image_data);
                              ("s3_bucket", bucket);
                              ("s3_key", key);
                              ("inferences", PList [])])]).
End Handler.
End Classifier.

(** ** Failures of the operations

    The ways an operation of the first two handlers can fail on [event]
    from the world [w]: with the exception [e], leaving the world [w']. *)

Section Failures.
Context {W F : Type} `{s3 : Services W F}.

Inductive op_fails (event : PyVal) (w : W) (e : PyExn) (w' : W) : Prop :=
| key_access_fails :
    getitem event "s3_key" = Raise e -> w' = w ->
    op_fails event w e w'
| bucket_access_fails (key : PyVal) :
    getitem event "s3_key" = Return key ->
    getitem event "s3_bucket" = Raise e -> w' = w ->
    op_fails event w e w'
| fetch_fails (key bucket : PyVal) :
    getitem event "s3_key" = Return key ->
    getitem event "s3_bucket" = Return bucket ->
    s3_download_file bucket key "/tmp/image.png" w = (Raise e, w') ->
    op_fails event w e w'
| open_fails (key bucket : PyVal) (w1 : W) :
    getitem event "s3_key" = Return key ->
    getitem event "s3_bucket" = Return bucket ->
    s3_download_file bucket key "/tmp/image.png" w = (Return tt, w1) ->
    open_rb "/tmp/image.png" w1 = (Raise e, w') ->
    op_fails event w e w'
| read_fails (key bucket : PyVal) (w1 : W) (f : F) (w2 w3 : W) :
    getitem event "s3_key" = Return key ->
    getitem event "s3_bucket" = Return bucket ->
    s3_download_file bucket key "/tmp/image.png" w = (Return tt, w1) ->
    open_rb "/tmp/image.png" w1 = (Return f, w2) ->
    file_read f w2 = (Raise e, w3) ->
    w' = file_close f w3 ->
    op_fails event w e w'.

(** The fetch and the read succeed from [w], giving [data] and leaving
    [w3] before the file is closed. *)
Definition ops_succeed (key bucket : PyVal) (w : W) (f : F)
  (data : list byte) (w3 : W) : Prop :=
  exists w1 w2,
    s3_download_file bucket key "/tmp/image.png" w = (Return tt, w1)
    /\ open_rb "/tmp/image.png" w1 = (Return f, w2)
    /\ file_read f w2 = (Return data, w3).

(** The result of the first two handlers for [key], [bucket] and the
    bytes [data] of the object. *)
Definition response (key bucket : PyVal) (data : list byte) : PyVal :=
  PDict [("statusCode", PInt 200);
         ("body", PDict [("image_data", PBytes (b64encode data));
                         ("s3_bucket", bucket);
                         ("s3_key", key);
                         ("inferences", PList [])])].

End Failures.

(** ** Third function: the confidence threshold *)

Module Threshold.
Local Open Scope result_scope.

(** The literal [.70]. *)
Definition THRESHOLD : spec_float :=
  Eval vm_compute in float_of_decimal false 70 (-2).

(** [float(x.split(":")[1]) >= THRESHOLD] *)
Definition meets (x : string) : Result bool :=
  let? field := list_index (str_split ":" x) 1 in
  let? v := py_float field in
  Return (float_ge v THRESHOLD).

Definition above (v : spec_float) : bool := float_ge v THRESHOLD.

Definition lambda_handler (event context : PyVal) : Result PyVal :=
  let? inferences := getitem event "inferences" in
  let? entries := py_split inferences "," in
  let? flags := list_comprehension meets entries in
  let meets_threshold := any flags in
  let? _ := (if meets_threshold then Return tt
             else Raise (py_raise (PStr "THRESHOLD_CONFIDENCE_NOT_MET"))) in
  let? body := json_dumps event in
  Return (PDict [("statusCode", PInt 200); ("body", PStr body)]).

(** The confidence values of a string of comma-separated
    [label:value] entries, when every entry has a value that [float]
    reads. *)
Definition confidence (x : string) : option spec_float :=
  match nth_error (str_split ":" x) 1 with
  | Some field => float_of_str field
  | None => None
  end.

Fixpoint confidences_of (entries : list string) : option (list spec_float) :=
  match entries with
  | [] => Some []
  | x :: rest =>
      match confidence x, confidences_of rest with
      | Some v, Some vs => Some (v :: vs)
      | _, _ => None
      end
  end.

Definition confidences (s : string) : option (list spec_float) :=
  confidences_of (str_split "," s).

End Threshold.

(** ** A world in memory

    An object store and a file system held in lists, with the lines
    printed so far: an instance of [Services] on which the handlers
    run. *)

Module Memory.

Record World : Type := mkWorld {
  objects : list (string * string * list byte);
  files : list (string * list byte);
  stdout : list (list PyVal)
}.

Fixpoint find_object (os : list (string * string * list byte))
  (bucket key : string) : option (list byte) :=
  match os with
  | [] => None
  | (b, k, data) :: rest =>
      if String.eqb b bucket && String.eqb k key then Some data
      else find_object rest bucket key
  end.

Fixpoint find_file (fs : list (string * list byte)) (name : string)
  : option (list byte) :=
  match fs with
  | [] => None
  | (n, data) :: rest =>
      if String.eqb n name then Some data else find_file rest name
  end.

Definition download (bucket key : PyVal) (filename : string)
  : M World unit :=
  fun w =>
    match bucket, key with
    | PStr b, PStr k =>
        match find_object (objects w) b k with
        | Some data =>
            (Return tt,
             mkWorld (objects w) ((filename, data) :: files w) (stdout w))
        | None => (Raise (mkExn ClientError "Not Found"), w)
        end
    | _, _ =>
        (Raise (mkExn ParamValidationError "Parameter validation failed"), w)
    end.

Definition no_such_file : PyExn :=
  mkExn OSError "No such file or directory".

Definition open_file (name : string) : M World string :=
  fun w =>
    match find_file (files w) name with
    | Some _ => (Return name, w)
    | None => (Raise no_such_file, w)
    end.

Definition read (f : string) : M World (list byte) :=
  fun w =>
    match find_file (files w) f with
    | Some data => (Return data, w)
    | None => (Raise no_such_file, w)
    end.

#[export] Instance services : Services World string := {
  s3_download_file := download;
  open_rb := open_file;
  file_read := read;
  file_close := fun _ w => w;
  print := fun args w =>
    mkWorld (objects w) (files w) (stdout w ++ [args])
}.

(** The test object of the workflow, and a store that holds it. *)
Definition test_event : PyVal :=
  PDict [("image_data", PStr EmptyString);
         ("s3_bucket", PStr "sagemaker-us-east-1-605922365623");
         ("s3_key", PStr "test/bicycle_s_000513.png")].

Definition test_world : World :=
  mkWorld [("sagemaker-us-east-1-605922365623",
            "test/bicycle_s_000513.png",
            list_byte_of_string "PNG")] [] [].

Definition empty_world : World := mkWorld [] [] [].

Definition test_key : PyVal := PStr "test/bicycle_s_000513.png".

Definition test_bucket : PyVal := PStr "sagemaker-us-east-1-605922365623".

(** The world after the object was fetched to [/tmp/image.png]. *)
Definition fetched_world : World :=
  mkWorld (objects test_world)
    [("/tmp/image.png", list_byte_of_string "PNG")] [].

End Memory.

(** ** Sample events *)

Module Samples.

(** An event whose best label clears the threshold. *)
Definition confident : PyVal :=
  PDict [("image_data", PStr "UE5H");
         ("s3_bucket", PStr "sagemaker-us-east-1-605922365623");
         ("s3_key", PStr "test/bicycle_s_000513.png");
         ("inferences", PStr "bicycle:0.95,motorcycle:0.05")].

(** An event none of whose labels clears it. *)
Definition doubtful : PyVal :=
  PDict [("image_data", PStr "UE5H");
         ("s3_bucket", PStr "sagemaker-us-east-1-605922365623");
         ("s3_key", PStr "test/bicycle_s_000513.png");
         ("inferences", PStr "bicycle:0.65,motorcycle:0.35")].

(** The data object as the first two functions return it: the
    inferences are a list. *)
Definition data_object : PyVal :=
  PDict [("image_data", PBytes (list_byte_of_string "UE5H"));
         ("s3_bucket", PStr "sagemaker-us-east-1-605922365623");
         ("s3_key", PStr "test/bicycle_s_000513.png");
         ("inferences", PList [])].

(** The data object after a prediction: a list of confidence scores. *)
Definition scored_object : PyVal :=
  PDict [("image_data", PStr "UE5H");
         ("s3_bucket", PStr "sagemaker-us-east-1-605922365623");
         ("s3_key", PStr "test/bicycle_s_000513.png");
         ("inferences",
          PList [PFloat (float_of_decimal false 95 (-2));
                 PFloat (float_of_decimal false 5 (-2))])].

Definition dec (D q : Z) : spec_float := float_of_decimal false D q.

End Samples.

(** ** Reading base64 text back

    The strict inverse of [b64encode]: groups of four characters, padding
    only in the last group. *)

Fixpoint index_in (c : byte) (l : list byte) (i : N) : option N :=
  match l with
  | [] => None
  | x :: r => if Byte.eqb x c then Some i else index_in c r (i + 1)
  end.

Definition b64_index (c : byte) : option N := index_in c b64_alphabet 0.

Definition byte_of (n : N) : byte :=
  match Byte.of_N n with
  | Some b => b
  | None => "000"%byte
  end.

Fixpoint b64decode (text : list byte) : option (list byte) :=
  match text with
  | [] => Some []
  | c0 :: c1 :: c2 :: c3 :: rest =>
      match b64_index c0, b64_index c1 with
      | Some i0, Some i1 =>
          let x := byte_of (i0 * 4 + i1 / 16) in
          if Byte.eqb c3 "="%byte then
            match rest with
            | [] =>
                if Byte.eqb c2 "="%byte then Some [x]
                else
                  match b64_index c2 with
                  | Some i2 => Some [x; byte_of (i1 mod 16 * 16 + i2 / 4)]
                  | None => None
                  end
            | _ :: _ => None
            end
          else
            match b64_index c2, b64_index c3, b64decode rest with
            | Some i2, Some i3, Some tail =>
                Some (x :: byte_of (i1 mod 16 * 16 + i2 / 4)
                        :: byte_of (i2 mod 4 * 64 + i3) :: tail)
            | _, _, _ => None
            end
      | _, _ => None
      end
  | _ => None
  end%N.

(** The characters of base64 text: the alphabet and the padding. *)
Definition b64_text_char (c : byte) : bool :=
  match b64_index c with
  | Some _ => true
  | None => Byte.eqb c "="%byte
  end.

(** ** Printable text *)

(** The printable ASCII characters, space to tilde. *)
Definition printable (c : ascii) : bool := (32 <=? code c) && (code c <=? 126).

Fixpoint all_printable (s : string) : bool :=
  match s with
  | EmptyString => true
  | String c r => printable c && all_printable r
  end.

(** * Properties *)

(** ** Floats *)

Lemma SFcompare_antisym (x y : spec_float) :
  SFcompare y x = option_map CompOpp (SFcompare x y).
Proof.
  destruct x as [sx | sx | | sx mx ex], y as [sy | sy | | sy my ey];
    simpl; try reflexivity;
    try (destruct sx; reflexivity); try (destruct sy; reflexivity);
    try (destruct sx, sy; reflexivity).
  pose proof (Pos.compare_cont_antisym mx my Eq) as Hm. simpl in Hm.
  destruct sx, sy; simpl; try reflexivity;
    rewrite (Z.compare_antisym ex ey);
    destruct (ex ?= ey); simpl; try reflexivity;
    rewrite <- Hm; destruct (Pos.compare_cont Eq mx my); reflexivity.
Qed.


(** ** Splitting *)

Lemma str_rev_onto_twice (a acc acc' : string) :
  str_rev_onto (str_rev_onto a acc) acc' = str_rev_onto acc (a ++ acc').
Proof.
  revert acc. induction a as [ | c r IH]; intros acc; simpl.
  - reflexivity.
  - rewrite IH. reflexivity.
Qed.

Lemma str_append_empty (a : string) : a ++ EmptyString = a.
Proof. induction a as [ | c r IH]; simpl; congruence. Qed.

Lemma split_acc_piece (sep : ascii) (a cur : string) :
  no_char sep a = true ->
  split_acc sep cur a = [str_rev (str_rev_onto a cur)].
Proof.
  revert cur. induction a as [ | c r IH]; intros cur Hno; simpl in *.
  - reflexivity.
  - apply andb_prop in Hno. destruct Hno as [Hc Hr].
    apply negb_true_iff in Hc. rewrite Hc. apply IH. exact Hr.
Qed.

Lemma split_acc_first (sep : ascii) (a b cur : string) :
  no_char sep a = true ->
  split_acc sep cur (a ++ String sep b)
  = str_rev (str_rev_onto a cur) :: split_acc sep EmptyString b.
Proof.
  revert cur. induction a as [ | c r IH]; intros cur Hno; simpl in *.
  - rewrite Ascii.eqb_refl. reflexivity.
  - apply andb_prop in Hno. destruct Hno as [Hc Hr].
    apply negb_true_iff in Hc. rewrite Hc. apply IH. exact Hr.
Qed.

(** [(label + ":" + value).split(":")] is [[label, value]] when neither
    holds a colon. *)
Lemma split_label_value (label value : string) :
  no_char ":" label = true ->
  no_char ":" value = true ->
  str_split ":" (label ++ String ":" value) = [label; value].
Proof.
  intros Hl Hv. unfold str_split.
  rewrite (split_acc_first _ _ _ _ Hl), (split_acc_piece _ _ _ Hv).
  unfold str_rev. rewrite !str_rev_onto_twice. simpl.
  rewrite !str_append_empty. reflexivity.
Qed.

(** ** Serialization of JSON values *)

(** [json.dumps] returns on every JSON value. *)
Lemma json_dumps_total (v : PyVal) :
  is_json v = true -> exists s, json_dumps v = Return s.
Proof.
  induction v as [ | b | z | f | s | b | l IH | d IH | e]
    using PyVal_nested_ind; simpl; intros Hj; try discriminate; eauto.
  - match goal with
    | |- exists s, match ?go l with _ => _ end = _ =>
        assert (Hl : exists xs, go l = Return xs)
    end.
    { induction IH as [ | x r Hx _ IHr]; simpl in *; eauto.
      apply andb_prop in Hj. destruct Hj as [Hjx Hjr].
      destruct (Hx Hjx) as [a ->]. destruct (IHr Hjr) as [xs ->]. eauto. }
    destruct Hl as [xs ->]. eauto.
  - match goal with
    | |- exists s, match ?go d with _ => _ end = _ =>
        assert (Hd : exists xs, go d = Return xs)
    end.
    { induction IH as [ | [k x] r Hx _ IHr]; simpl in *; eauto.
      apply andb_prop in Hj. destruct Hj as [Hjx Hjr].
      destruct (Hx Hjx) as [a ->]. destruct (IHr Hjr) as [xs ->]. eauto. }
    destruct Hd as [xs ->]. eauto.
Qed.

(** A serialized dict holds every field, in order. *)
Lemma json_dumps_dict (d : list (string * PyVal)) (body : string) :
  json_dumps (PDict d) = Return body ->
  exists items, Forall2 field_text d items
                /\ body = "{" ++ join ", " items ++ "}".
Proof.
  simpl.
  match goal with
  | |- match ?go d with _ => _ end = _ -> _ =>
      assert (Hgo : forall d xs, go d = Return xs -> Forall2 field_text d xs)
  end.
  { clear d body. induction d as [ | [k x] r IH]; intros xs Hxs.
    - injection Hxs as <-. constructor.
    - simpl in Hxs. destruct (json_dumps x) as [a | e] eqn:Hx; [ | discriminate].
      match type of Hxs with
      | match ?g with _ => _ end = _ => destruct g as [b | e] eqn:Hr
      end; [ | discriminate].
      injection Hxs as <-. constructor; [ | apply IH; reflexivity].
      exists a. split; [exact Hx | reflexivity]. }
  match goal with
  | |- match ?g with _ => _ end = _ -> _ => destruct g as [xs | e] eqn:Hxs
  end; [ | discriminate].
  intros Heq. injection Heq as <-. exists xs. split; [ | reflexivity].
  apply Hgo. exact Hxs.
Qed.

Lemma getitem_dict (event : PyVal) (k : string) (x : PyVal) :
  getitem event k = Return x -> exists d, event = PDict d.
Proof. destruct event; simpl; try discriminate. eauto. Qed.

(** ** The threshold handler *)

Module ThresholdFacts.
Import Threshold.

Lemma meets_confidence (x : string) (v : spec_float) :
  confidence x = Some v -> meets x = Return (above v).
Proof.
  unfold confidence, meets, list_index, py_float.
  destruct (nth_error (str_split ":" x) 1) as [field | ]; simpl;
    [ | discriminate].
  intros ->. reflexivity.
Qed.

(** An entry [label:value] has the confidence that [float] reads in
    [value]. *)
Lemma confidence_label_value (label value : string) (v : spec_float) :
  no_char ":" label = true ->
  no_char ":" value = true ->
  float_of_str value = Some v ->
  confidence (label ++ String ":" value) = Some v.
Proof.
  intros Hl Hv Hf. unfold confidence.
  rewrite (split_label_value label value Hl Hv). exact Hf.
Qed.

Lemma comprehension_confidences (entries : list string) :
  forall vs, confidences_of entries = Some vs ->
  list_comprehension meets entries = Return (map above vs).
Proof.
  induction entries as [ | x rest IH]; simpl; intros vs Hvs.
  - injection Hvs as <-. reflexivity.
  - destruct (confidence x) as [v | ] eqn:Hx; [ | discriminate].
    destruct (confidences_of rest) as [vs' | ]; [ | discriminate].
    injection Hvs as <-.
    rewrite (meets_confidence x v Hx), (IH vs' eq_refl). reflexivity.
Qed.

Lemma any_map_above (vs : list spec_float) :
  any (map above vs) = existsb above vs.
Proof.
  unfold any. induction vs as [ | v vs IH]; simpl; congruence.
Qed.

(** What the handler does on an event whose inferences parse. *)
Lemma handler_run (event context : PyVal) (s : string)
  (vs : list spec_float) :
  getitem event "inferences" = Return (PStr s) ->
  confidences s = Some vs ->
  lambda_handler event context =
    if existsb above vs then
      match json_dumps event with
      | Return body =>
          Return (PDict [("statusCode", PInt 200); ("body", PStr body)])
      | Raise e => Raise e
      end
    else Raise (py_raise (PStr "THRESHOLD_CONFIDENCE_NOT_MET")).
Proof.
  intros Hget Hvs. unfold lambda_handler, confidences in *.
  rewrite Hget. simpl.
  rewrite (comprehension_confidences _ vs Hvs). simpl.
  rewrite any_map_above.
  destruct (existsb above vs); simpl; [ | reflexivity].
  destruct (json_dumps event); reflexivity.
Qed.

Lemma none_above (vs : list spec_float) :
  (forall v, In v vs -> above v = false) -> existsb above vs = false.
Proof.
  intros H. destruct (existsb above vs) eqn:E; [ | reflexivity].
  apply existsb_exists in E. destruct E as [v [Hin Hv]].
  rewrite (H v Hin) in Hv. discriminate.
Qed.

Lemma some_above (vs : list spec_float) :
  (exists v, In v vs /\ above v = true) -> existsb above vs = true.
Proof. intros H. apply existsb_exists. exact H. Qed.

End ThresholdFacts.



(** C3. The threshold handler does not accept the data object with a
    list of inference results: on every event whose inferences field is
    a list, the call of [split] raises an [AttributeError] before any
    value is compared. *)
Theorem threshold_rejects_list (event context : PyVal) (l : list PyVal) :
  getitem event "inferences" = Return (PList l) ->
  Threshold.lambda_handler event context
  = Raise (mkExn AttributeError "'list' object has no attribute 'split'").
Proof.
  intros Hget. unfold Threshold.lambda_handler. rewrite Hget. reflexivity.
Qed.

Lemma threshold_rejects_list_witness :
  getitem Samples.scored_object "inferences"
  = Return (PList [PFloat (Samples.dec 95 (-2)); PFloat (Samples.dec 5 (-2))])
  /\ Threshold.lambda_handler Samples.scored_object PNone
     = Raise (mkExn AttributeError "'list' object has no attribute 'split'").
Proof.
  assert (H : getitem Samples.scored_object "inferences"
              = Return (PList [PFloat (Samples.dec 95 (-2));
                               PFloat (Samples.dec 5 (-2))]))
    by reflexivity.
  split; [exact H | ].
  exact (threshold_rejects_list Samples.scored_object PNone _ H).
Defined.

(** C4. When no confidence value of the event reaches [THRESHOLD], the
    threshold handler raises and returns no value. *)
Theorem threshold_not_met_aborts (event context : PyVal) (s : string)
  (vs : list spec_float) :
  getitem event "inferences" = Return (PStr s) ->
  Threshold.confidences s = Some vs ->
  ~ (exists v, In v vs /\ float_ge v Threshold.THRESHOLD = true) ->
  (exists e, Threshold.lambda_handler event context = Raise e)
  /\ (forall r, Threshold.lambda_handler event context <> Return r).
Proof.
  intros Hget Hvs Hnone.
  rewrite (ThresholdFacts.handler_run event context s vs Hget Hvs).
  rewrite ThresholdFacts.none_above.
  - split; [eexists; reflexivity | intros r; discriminate].
  - intros v Hin. unfold Threshold.above.
    destruct (float_ge v Threshold.THRESHOLD) eqn:E; [ | reflexivity].
    exfalso. apply Hnone. exists v. split; assumption.
Qed.

Lemma threshold_not_met_aborts_witness :
  getitem Samples.doubtful "inferences"
  = Return (PStr "bicycle:0.65,motorcycle:0.35")
  /\ Threshold.confidences "bicycle:0.65,motorcycle:0.35"
     = Some [Samples.dec 65 (-2); Samples.dec 35 (-2)]
  /\ ~ (exists v, In v [Samples.dec 65 (-2); Samples.dec 35 (-2)]
                  /\ float_ge v Threshold.THRESHOLD = true)
  /\ (exists e, Threshold.lambda_handler Samples.doubtful PNone = Raise e)
  /\ (forall r, Threshold.lambda_handler Samples.doubtful PNone <> Return r).
Proof.
  assert (H1 : getitem Samples.doubtful "inferences"
               = Return (PStr "bicycle:0.65,motorcycle:0.35")) by reflexivity.
  assert (H2 : Threshold.confidences "bicycle:0.65,motorcycle:0.35"
               = Some [Samples.dec 65 (-2); Samples.dec 35 (-2)])
    by (vm_compute; reflexivity).
  assert (H3 : ~ (exists v, In v [Samples.dec 65 (-2); Samples.dec 35 (-2)]
                            /\ float_ge v Threshold.THRESHOLD = true)).
  { intros [v [[<- | [<- | []]] Hv]]; vm_compute in Hv; discriminate. }
  split; [exact H1 | ]. split; [exact H2 | ]. split; [exact H3 | ].
  exact (threshold_not_met_aborts Samples.doubtful PNone _ _ H1 H2 H3).
Defined.

(** C10. On the failure branch the handler raises a [TypeError], the
    one the interpreter raises for [raise] of a string; the exception
    does not carry the text [THRESHOLD_CONFIDENCE_NOT_MET]. *)
Theorem threshold_failure_is_type_error (event context : PyVal) (s : string)
  (vs : list spec_float) :
  getitem event "inferences" = Return (PStr s) ->
  Threshold.confidences s = Some vs ->
  (forall v, In v vs -> float_ge v Threshold.THRESHOLD = false) ->
  exists e,
    Threshold.lambda_handler event context = Raise e
    /\ e = py_raise (PStr "THRESHOLD_CONFIDENCE_NOT_MET")
    /\ exn_kind e = TypeError
    /\ exn_msg e <> "THRESHOLD_CONFIDENCE_NOT_MET".
Proof.
  intros Hget Hvs Hall.
  rewrite (ThresholdFacts.handler_run event context s vs Hget Hvs).
  rewrite (ThresholdFacts.none_above vs Hall).
  eexists. repeat split. simpl. discriminate.
Qed.

Lemma threshold_failure_is_type_error_witness :
  getitem Samples.doubtful "inferences"
  = Return (PStr "bicycle:0.65,motorcycle:0.35")
  /\ Threshold.confidences "bicycle:0.65,motorcycle:0.35"
     = Some [Samples.dec 65 (-2); Samples.dec 35 (-2)]
  /\ (forall v, In v [Samples.dec 65 (-2); Samples.dec 35 (-2)] ->
                float_ge v Threshold.THRESHOLD = false)
  /\ exists e,
       Threshold.lambda_handler Samples.doubtful PNone = Raise e
       /\ e = py_raise (PStr "THRESHOLD_CONFIDENCE_NOT_MET")
       /\ exn_kind e = TypeError
       /\ exn_msg e <> "THRESHOLD_CONFIDENCE_NOT_MET".
Proof.
  assert (H1 : getitem Samples.doubtful "inferences"
               = Return (PStr "bicycle:0.65,motorcycle:0.35")) by reflexivity.
  assert (H2 : Threshold.confidences "bicycle:0.65,motorcycle:0.35"
               = Some [Samples.dec 65 (-2); Samples.dec 35 (-2)])
    by (vm_compute; reflexivity).
  assert (H3 : forall v, In v [Samples.dec 65 (-2); Samples.dec 35 (-2)] ->
                         float_ge v Threshold.THRESHOLD = false).
  { intros v [<- | [<- | []]]; vm_compute; reflexivity. }
  split; [exact H1 | ]. split; [exact H2 | ]. split; [exact H3 | ].
  exact (threshold_failure_is_type_error Samples.doubtful PNone _ _ H1 H2 H3).
Defined.

(** C8. On the success path the threshold handler returns status code
    200 and, as body, the JSON text of the whole event it was given:
    every field of the event, in order, with its own serialization. *)
Theorem threshold_success_body (event context : PyVal) (s : string)
  (vs : list spec_float) :
  is_json event = true ->
  getitem event "inferences" = Return (PStr s) ->
  Threshold.confidences s = Some vs ->
  (exists v, In v vs /\ float_ge v Threshold.THRESHOLD = true) ->
  exists body,
    json_dumps event = Return body
    /\ Threshold.lambda_handler event context
       = Return (PDict [("statusCode", PInt 200); ("body", PStr body)])
    /\ exists d items,
         event = PDict d
         /\ Forall2 field_text d items
         /\ body = "{" ++ join ", " items ++ "}".
Proof.
  intros Hjson Hget Hvs Hex.
  destruct (json_dumps_total event Hjson) as [body Hbody].
  exists body. split; [exact Hbody | ]. split.
  - rewrite (ThresholdFacts.handler_run event context s vs Hget Hvs).
    rewrite (ThresholdFacts.some_above vs Hex), Hbody. reflexivity.
  - destruct (getitem_dict event _ _ Hget) as [d ->].
    destruct (json_dumps_dict d body Hbody) as [items [Hitems ->]].
    exists d, items. repeat split. exact Hitems.
Qed.

Lemma threshold_success_body_witness :
  is_json Samples.confident = true
  /\ getitem Samples.confident "inferences"
     = Return (PStr "bicycle:0.95,motorcycle:0.05")
  /\ Threshold.confidences "bicycle:0.95,motorcycle:0.05"
     = Some [Samples.dec 95 (-2); Samples.dec 5 (-2)]
  /\ (exists v, In v [Samples.dec 95 (-2); Samples.dec 5 (-2)]
                /\ float_ge v Threshold.THRESHOLD = true)
  /\ exists body,
       json_dumps Samples.confident = Return body
       /\ Threshold.lambda_handler Samples.confident PNone
          = Return (PDict [("statusCode", PInt 200); ("body", PStr body)])
       /\ exists d items,
            Samples.confident = PDict d
            /\ Forall2 field_text d items
            /\ body = "{" ++ join ", " items ++ "}".
Proof.
  assert (H1 : is_json Samples.confident = true) by reflexivity.
  assert (H2 : getitem Samples.confident "inferences"
               = Return (PStr "bicycle:0.95,motorcycle:0.05")) by reflexivity.
  assert (H3 : Threshold.confidences "bicycle:0.95,motorcycle:0.05"
               = Some [Samples.dec 95 (-2); Samples.dec 5 (-2)])
    by (vm_compute; reflexivity).
  assert (H4 : exists v, In v [Samples.dec 95 (-2); Samples.dec 5 (-2)]
                         /\ float_ge v Threshold.THRESHOLD = true).
  { exists (Samples.dec 95 (-2)).
    split; [left; reflexivity | vm_compute; reflexivity]. }
  split; [exact H1 | ]. split; [exact H2 | ]. split; [exact H3 | ].
  split; [exact H4 | ].
  exact (threshold_success_body Samples.confident PNone _ _ H1 H2 H3 H4).
Defined.

(** ** The first two handlers *)

Section HandlerFacts.
Context {W F : Type} `{s3 : Services W F}.

(** Every return of the serialize handler comes from a successful fetch
    and read, and has the shape of [response]. *)
Lemma serialize_returns (event context : PyVal) (w : W) (r : PyVal) (w' : W) :
  Serialize.lambda_handler event context w = (Return r, w') ->
  exists key bucket f data w3 keys,
    getitem event "s3_key" = Return key
    /\ getitem event "s3_bucket" = Return bucket
    /\ ops_succeed key bucket w f data w3
    /\ dict_keys event = Return keys
    /\ r = response key bucket data
    /\ w' = print [PStr "Event:"; keys] (file_close f w3).
Proof.
  unfold Serialize.lambda_handler, bind, lift, with_open, py_print, ret.
  destruct (getitem event "s3_key") as [key | e0] eqn:K; [ | discriminate].
  destruct (getitem event "s3_bucket") as [bucket | e0] eqn:B;
    [ | discriminate].
  destruct (s3_download_file bucket key "/tmp/image.png" w)
    as [[[] | e0] w1] eqn:D; [ | discriminate].
  destruct (open_rb "/tmp/image.png" w1) as [[f | e0] w2] eqn:O;
    [ | discriminate].
  destruct (file_read f w2) as [[data | e0] w3] eqn:R; [ | discriminate].
  destruct (dict_keys event) as [keys | e0] eqn:KS; [ | discriminate].
  intros Heq. injection Heq as <- <-.
  exists key, bucket, f, data, w3, keys.
  repeat split; try reflexivity. exists w1, w2. repeat split; assumption.
Qed.

(** When the fetch and the read succeed, the handler returns. *)
Lemma serialize_of_success (event context key bucket : PyVal) (w : W) (f : F)
  (data : list byte) (w3 : W) :
  getitem event "s3_key" = Return key ->
  getitem event "s3_bucket" = Return bucket ->
  ops_succeed key bucket w f data w3 ->
  exists keys,
    dict_keys event = Return keys
    /\ Serialize.lambda_handler event context w
       = (Return (response key bucket data),
          print [PStr "Event:"; keys] (file_close f w3)).
Proof.
  intros K B (w1 & w2 & D & O & R).
  destruct (getitem_dict event _ _ K) as [d ->].
  eexists. split; [reflexivity | ].
  unfold Serialize.lambda_handler, bind, lift, with_open, py_print, ret.
  rewrite K, B, D, O, R. reflexivity.
Qed.

(** The handler raises exactly when one of its operations fails, and
    then with the exception of that operation. *)
Lemma serialize_raises (event context : PyVal) (w : W) (e : PyExn) (w' : W) :
  Serialize.lambda_handler event context w = (Raise e, w')
  <-> op_fails event w e w'.
Proof.
  unfold Serialize.lambda_handler, bind, lift, with_open, py_print, ret.
  split.
  - destruct (getitem event "s3_key") as [key | e0] eqn:K.
    2: { intros Heq. injection Heq as <- <-.
         apply key_access_fails; [exact K | reflexivity]. }
    destruct (getitem event "s3_bucket") as [bucket | e0] eqn:B.
    2: { intros Heq. injection Heq as <- <-.
         apply (bucket_access_fails _ _ _ _ key); [exact K | exact B | reflexivity]. }
    destruct (s3_download_file bucket key "/tmp/image.png" w)
      as [[[] | e0] w1] eqn:D.
    2: { intros Heq. injection Heq as <- <-.
         apply (fetch_fails _ _ _ _ key bucket); assumption. }
    destruct (open_rb "/tmp/image.png" w1) as [[f | e0] w2] eqn:O.
    2: { intros Heq. injection Heq as <- <-.
         apply (open_fails _ _ _ _ key bucket w1); assumption. }
    destruct (file_read f w2) as [[data | e0] w3] eqn:R.
    2: { intros Heq. injection Heq as <- <-.
         apply (read_fails _ _ _ _ key bucket w1 f w2 w3);
           try assumption; reflexivity. }
    destruct (getitem_dict event _ _ K) as [d ->]. simpl. discriminate.
  - intros [K -> | key K B -> | key bucket K B D | key bucket w1 K B D O
           | key bucket w1 f w2 w3 K B D O R ->].
    + rewrite K. reflexivity.
    + rewrite K, B. reflexivity.
    + rewrite K, B, D. reflexivity.
    + rewrite K, B, D, O. reflexivity.
    + rewrite K, B, D, O, R. reflexivity.
Qed.

Lemma classifier_unfold (event context : PyVal) (w : W) :
  Classifier.lambda_handler event context w
  = Serialize.lambda_handler event context w.
Proof. reflexivity. Qed.

End HandlerFacts.

Section HandlerClaims.
Context {W F : Type} `{s3 : Services W F}.

(** C5. For an event that holds [s3_key] and [s3_bucket], every result
    of the serialize handler carries these two values unchanged in its
    body, and the handler returns whenever the fetch and the read of the
    object succeed. *)
Theorem serialize_preserves_address (event context : PyVal) (w : W)
  (key bucket : PyVal) :
  getitem event "s3_key" = Return key ->
  getitem event "s3_bucket" = Return bucket ->
  (forall r w',
      Serialize.lambda_handler event context w = (Return r, w') ->
      exists body,
        getitem r "body" = Return body
        /\ getitem body "s3_key" = Return key
        /\ getitem body "s3_bucket" = Return bucket)
  /\ (forall f data w3,
        ops_succeed key bucket w f data w3 ->
        exists r w', Serialize.lambda_handler event context w = (Return r, w')).
Proof.
  intros K B. split.
  - intros r w' Hrun.
    destruct (serialize_returns event context w r w' Hrun)
      as (key' & bucket' & f & data & w3 & keys & K' & B' & _ & _ & -> & _).
    rewrite K in K'. injection K' as <-.
    rewrite B in B'. injection B' as <-.
    eexists. repeat split.
  - intros f data w3 Hops.
    destruct (serialize_of_success event context key bucket w f data w3 K B Hops)
      as (keys & _ & Hrun).
    eauto.
Qed.

(** C7. For an event that holds [s3_key] and [s3_bucket], the body of
    every result of the serialize handler holds the four fields of the
    data object, and the handler returns whenever the fetch and the read
    of the object succeed. *)
Theorem serialize_body_fields (event context : PyVal) (w : W)
  (key bucket : PyVal) :
  getitem event "s3_key" = Return key ->
  getitem event "s3_bucket" = Return bucket ->
  (forall r w',
      Serialize.lambda_handler event context w = (Return r, w') ->
      exists body,
        getitem r "body" = Return body
        /\ forall k,
             In k ["inferences"; "s3_key"; "s3_bucket"; "image_data"] ->
             exists v, getitem body k = Return v)
  /\ (forall f data w3,
        ops_succeed key bucket w f data w3 ->
        exists r w', Serialize.lambda_handler event context w = (Return r, w')).
Proof.
  intros K B. split.
  - intros r w' Hrun.
    destruct (serialize_returns event context w r w' Hrun)
      as (key' & bucket' & f & data & w3 & keys & _ & _ & _ & _ & -> & _).
    eexists. split; [reflexivity | ].
    intros k [<- | [<- | [<- | [<- | []]]]]; eexists; reflexivity.
  - intros f data w3 Hops.
    destruct (serialize_of_success event context key bucket w f data w3 K B Hops)
      as (keys & _ & Hrun).
    eauto.
Qed.

(** C6. Neither of the first two handlers catches an exception or raises
    one of its own: each raises exactly when the access to a field, the
    fetch of the object, the opening or the read of the file fails, with
    the exception of that operation and in the world it left. *)
Theorem first_two_handlers_propagate (event context : PyVal) (w : W)
  (e : PyExn) (w' : W) :
  (Serialize.lambda_handler event context w = (Raise e, w')
   <-> op_fails event w e w')
  /\ (Classifier.lambda_handler event context w = (Raise e, w')
      <-> op_fails event w e w').
Proof.
  split.
  - apply serialize_raises.
  - rewrite classifier_unfold. apply serialize_raises.
Qed.

(** C9. The second handler is the first one again: on every event and
    context the two are the same computation, with the same operations
    on the world and the same result. *)
Theorem classifier_same_as_serialize (event context : PyVal) :
  Classifier.lambda_handler event context
  = Serialize.lambda_handler event context.
Proof. reflexivity. Qed.

(** C2. The second handler runs no prediction: whatever the event, the
    inferences of its result are the empty list. *)
Theorem classifier_returns_no_inference (event context : PyVal) (w : W)
  (r : PyVal) (w' : W) :
  Classifier.lambda_handler event context w = (Return r, w') ->
  exists body,
    getitem r "body" = Return body
    /\ getitem body "inferences" = Return (PList []).
Proof.
  rewrite classifier_unfold. intros Hrun.
  destruct (serialize_returns event context w r w' Hrun)
    as (key & bucket & f & data & w3 & keys & _ & _ & _ & _ & -> & _).
  eexists. split; reflexivity.
Qed.

End HandlerClaims.

Lemma memory_ops_succeed :
  ops_succeed (s3 := Memory.services) Memory.test_key Memory.test_bucket
    Memory.test_world "/tmp/image.png" (list_byte_of_string "PNG")
    Memory.fetched_world.
Proof.
  exists Memory.fetched_world, Memory.fetched_world.
  repeat split.
Qed.

Lemma serialize_preserves_address_witness :
  getitem Memory.test_event "s3_key" = Return Memory.test_key
  /\ getitem Memory.test_event "s3_bucket" = Return Memory.test_bucket
  /\ exists r w' body,
       Serialize.lambda_handler (s3 := Memory.services)
         Memory.test_event PNone Memory.test_world = (Return r, w')
       /\ getitem r "body" = Return body
       /\ getitem body "s3_key" = Return Memory.test_key
       /\ getitem body "s3_bucket" = Return Memory.test_bucket.
Proof.
  assert (H1 : getitem Memory.test_event "s3_key" = Return Memory.test_key)
    by reflexivity.
  assert (H2 : getitem Memory.test_event "s3_bucket"
               = Return Memory.test_bucket) by reflexivity.
  split; [exact H1 | ]. split; [exact H2 | ].
  destruct (serialize_preserves_address (s3 := Memory.services)
              Memory.test_event PNone Memory.test_world _ _ H1 H2)
    as [Hret Hsucc].
  destruct (Hsucc _ _ _ memory_ops_succeed) as (r & w' & Hrun).
  destruct (Hret r w' Hrun) as (body & Hbody).
  exists r, w', body. split; [exact Hrun | exact Hbody].
Defined.

Lemma serialize_body_fields_witness :
  getitem Memory.test_event "s3_key" = Return Memory.test_key
  /\ getitem Memory.test_event "s3_bucket" = Return Memory.test_bucket
  /\ exists r w' body,
       Serialize.lambda_handler (s3 := Memory.services)
         Memory.test_event PNone Memory.test_world = (Return r, w')
       /\ getitem r "body" = Return body
       /\ forall k,
            In k ["inferences"; "s3_key"; "s3_bucket"; "image_data"] ->
            exists v, getitem body k = Return v.
Proof.
  assert (H1 : getitem Memory.test_event "s3_key" = Return Memory.test_key)
    by reflexivity.
  assert (H2 : getitem Memory.test_event "s3_bucket"
               = Return Memory.test_bucket) by reflexivity.
  split; [exact H1 | ]. split; [exact H2 | ].
  destruct (serialize_body_fields (s3 := Memory.services)
              Memory.test_event PNone Memory.test_world _ _ H1 H2)
    as [Hret Hsucc].
  destruct (Hsucc _ _ _ memory_ops_succeed) as (r & w' & Hrun).
  destruct (Hret r w' Hrun) as (body & Hbody).
  exists r, w', body. split; [exact Hrun | exact Hbody].
Defined.

Lemma classifier_returns_no_inference_witness :
  exists r w',
    Classifier.lambda_handler (s3 := Memory.services)
      Samples.data_object PNone Memory.test_world = (Return r, w')
    /\ exists body,
         getitem r "body" = Return body
         /\ getitem body "inferences" = Return (PList []).
Proof.
  eexists. eexists.
  assert (H : Classifier.lambda_handler (s3 := Memory.services)
                Samples.data_object PNone Memory.test_world
              = (Return (response Memory.test_key Memory.test_bucket
                           (list_byte_of_string "PNG")),
                 Memory.mkWorld (Memory.objects Memory.test_world)
                   [("/tmp/image.png", list_byte_of_string "PNG")]
                   [[PStr "Event:";
                     PList [PStr "image_data"; PStr "s3_bucket";
                            PStr "s3_key"; PStr "inferences"]]]))
    by reflexivity.
  split; [exact H | ].
  exact (classifier_returns_no_inference (s3 := Memory.services) _ _ _ _ _ H).
Defined.

(** * Further properties *)
Module ThresholdMore.
Import Threshold.

Lemma meets_fails (x : string) :
  confidence x = None ->
  exists e, meets x = Raise e
            /\ (exn_kind e = IndexError \/ exn_kind e = ValueError).
Proof.
  unfold meets, confidence, list_index, py_float.
  destruct (nth_error (str_split ":" x) 1) as [field | ]; simpl.
  - destruct (float_of_str field) as [v | ]; simpl; [discriminate | ].
    intros _. eexists. split; [reflexivity | right; reflexivity].
  - intros _. eexists. split; [reflexivity | left; reflexivity].
Qed.

Lemma comprehension_fails (entries : list string) :
  confidences_of entries = None ->
  exists e, list_comprehension meets entries = Raise e
            /\ (exn_kind e = IndexError \/ exn_kind e = ValueError).
Proof.
  induction entries as [ | x rest IH]; simpl; intros Hnone; [discriminate | ].
  destruct (confidence x) as [v | ] eqn:Hx.
  - rewrite (ThresholdFacts.meets_confidence x v Hx).
    destruct (confidences_of rest) as [vs | ]; [discriminate | ].
    destruct (IH eq_refl) as (e & -> & Hk). eauto.
  - destruct (meets_fails x Hx) as (e & -> & Hk). eauto.
Qed.

Lemma py_split_str (v : PyVal) (sep : ascii) (l : list string) :
  py_split v sep = Return l -> exists s, v = PStr s /\ l = str_split sep s.
Proof.
  destruct v; simpl; try discriminate. intros H. injection H as <-. eauto.
Qed.

(** What the handler does on an event with a malformed entry. *)
Lemma handler_malformed (event context : PyVal) (s : string) :
  getitem event "inferences" = Return (PStr s) ->
  confidences s = None ->
  exists e, lambda_handler event context = Raise e
            /\ (exn_kind e = IndexError \/ exn_kind e = ValueError).
Proof.
  intros Hget Hnone. unfold lambda_handler, confidences in *.
  rewrite Hget. simpl.
  destruct (comprehension_fails _ Hnone) as (e & -> & Hk). simpl. eauto.
Qed.

(** A return of the handler comes from a string whose every entry
    parses, one value of which reaches the threshold. *)
Lemma returns_inv (event context r : PyVal) :
  lambda_handler event context = Return r ->
  exists s vs body,
    getitem event "inferences" = Return (PStr s)
    /\ confidences s = Some vs
    /\ existsb above vs = true
    /\ json_dumps event = Return body
    /\ r = PDict [("statusCode", PInt 200); ("body", PStr body)].
Proof.
  intros Hrun.
  destruct (getitem event "inferences") as [inferences | e0] eqn:Hget.
  2: { unfold lambda_handler in Hrun. rewrite Hget in Hrun. discriminate. }
  destruct (py_split inferences ",") as [entries | e0] eqn:Hsplit.
  2: { unfold lambda_handler in Hrun.
       rewrite Hget in Hrun. simpl in Hrun. rewrite Hsplit in Hrun.
       discriminate. }
  destruct (py_split_str _ _ _ Hsplit) as (s & -> & _).
  destruct (confidences s) as [vs | ] eqn:Hvs.
  2: { destruct (handler_malformed event context s Hget Hvs) as (e & He & _).
       congruence. }
  rewrite (ThresholdFacts.handler_run event context s vs Hget Hvs) in Hrun.
  destruct (existsb above vs) eqn:Hex; [ | discriminate].
  destruct (json_dumps event) as [body | e0] eqn:Hbody; [ | discriminate].
  injection Hrun as <-. exists s, vs, body.
  split; [reflexivity | ]. split; [exact Hvs | ].
  split; [exact Hex | ]. split; reflexivity.
Qed.

End ThresholdMore.


(** X1. The threshold handler returns exactly when the inferences field
    is a string all of whose entries parse, some value reaches the
    threshold and the event serializes; the result is then status code
    200 with the serialized event as body. *)
Theorem threshold_returns_iff (event context r : PyVal) :
  Threshold.lambda_handler event context = Return r
  <-> exists s vs body,
        getitem event "inferences" = Return (PStr s)
        /\ Threshold.confidences s = Some vs
        /\ (exists v, In v vs /\ float_ge v Threshold.THRESHOLD = true)
        /\ json_dumps event = Return body
        /\ r = PDict [("statusCode", PInt 200); ("body", PStr body)].
Proof.
  split.
  - intros Hrun.
    destruct (ThresholdMore.returns_inv event context r Hrun)
      as (s & vs & body & Hget & Hvs & Hex & Hbody & ->).
    exists s, vs, body. apply existsb_exists in Hex.
    split; [exact Hget | ]. split; [exact Hvs | ].
    split; [exact Hex | ]. split; [exact Hbody | reflexivity].
  - intros (s & vs & body & Hget & Hvs & Hex & Hbody & ->).
    rewrite (ThresholdFacts.handler_run event context s vs Hget Hvs).
    rewrite (ThresholdFacts.some_above vs Hex), Hbody. reflexivity.
Qed.

(** ** Kinds of the exceptions *)

Lemma getitem_raise_kind (v : PyVal) (k : string) (e : PyExn) :
  getitem v k = Raise e ->
  (exn_kind e = KeyError /\ exists d, v = PDict d /\ dict_get d k = None)
  \/ (exn_kind e = TypeError /\ forall d, v <> PDict d).
Proof.
  destruct v; simpl; intros H;
    try (injection H as <-; right; split; [reflexivity | discriminate]).
  destruct (dict_get d k) eqn:E; [discriminate | ].
  injection H as <-. left. split; [reflexivity | eauto].
Qed.

Lemma py_split_raise_kind (v : PyVal) (sep : ascii) (e : PyExn) :
  py_split v sep = Raise e ->
  (forall s, v <> PStr s)
  /\ (exn_kind e = TypeError \/ exn_kind e = AttributeError).
Proof.
  destruct v; simpl; intros H; try discriminate;
    injection H as <-; (split; [discriminate | ]);
    first [left; reflexivity | right; reflexivity].
Qed.

Lemma json_dumps_raise_kind (v : PyVal) (e : PyExn) :
  json_dumps v = Raise e -> exn_kind e = TypeError.
Proof.
  revert e.
  induction v as [ | b | z | f | s | b | l IH | d IH | x]
    using PyVal_nested_ind; simpl; intros e He; try discriminate;
    try (injection He as <-; reflexivity).
  - match type of He with
    | match ?go l with _ => _ end = _ =>
        assert (Hl : forall e, go l = Raise e -> exn_kind e = TypeError)
    end.
    { clear He. induction IH as [ | x r Hx _ IHr]; simpl; intros e' He';
        [discriminate | ].
      destruct (json_dumps x) as [a | e0] eqn:Ex.
      - match type of He' with
        | match ?g with _ => _ end = _ => destruct g as [xs | e1] eqn:Er
        end; [discriminate | ].
        injection He' as <-. apply IHr. reflexivity.
      - injection He' as <-. apply Hx. reflexivity. }
    match type of He with
    | match ?g with _ => _ end = _ => destruct g as [xs | e1] eqn:Er
    end; [discriminate | ].
    injection He as <-. apply Hl. reflexivity.
  - match type of He with
    | match ?go d with _ => _ end = _ =>
        assert (Hd : forall e, go d = Raise e -> exn_kind e = TypeError)
    end.
    { clear He. induction IH as [ | [k x] r Hx _ IHr]; simpl; intros e' He';
        [discriminate | ].
      simpl in Hx.
      destruct (json_dumps x) as [a | e0] eqn:Ex.
      - match type of He' with
        | match ?g with _ => _ end = _ => destruct g as [xs | e1] eqn:Er
        end; [discriminate | ].
        injection He' as <-. apply IHr. reflexivity.
      - injection He' as <-. apply Hx. reflexivity. }
    match type of He with
    | match ?g with _ => _ end = _ => destruct g as [xs | e1] eqn:Er
    end; [discriminate | ].
    injection He as <-. apply Hd. reflexivity.
Qed.

(** What the handler raises, by the place that raises. *)
Lemma threshold_raise_cases (event context : PyVal) (e : PyExn) :
  Threshold.lambda_handler event context = Raise e ->
  getitem event "inferences" = Raise e
  \/ (exists v, getitem event "inferences" = Return v
                /\ py_split v "," = Raise e)
  \/ (exists s, getitem event "inferences" = Return (PStr s)
                /\ Threshold.confidences s = None
                /\ (exn_kind e = IndexError \/ exn_kind e = ValueError))
  \/ (exists s vs, getitem event "inferences" = Return (PStr s)
                   /\ Threshold.confidences s = Some vs
                   /\ exn_kind e = TypeError).
Proof.
  intros Hrun.
  destruct (getitem event "inferences") as [inferences | e0] eqn:Hget.
  2: { unfold Threshold.lambda_handler in Hrun. rewrite Hget in Hrun.
       left. exact Hrun. }
  right.
  destruct (py_split inferences ",") as [entries | e0] eqn:Hsplit.
  2: { unfold Threshold.lambda_handler in Hrun.
       rewrite Hget in Hrun. simpl in Hrun. rewrite Hsplit in Hrun.
       simpl in Hrun. injection Hrun as <-. left. exists inferences.
       split; [reflexivity | exact Hsplit]. }
  right.
  destruct (ThresholdMore.py_split_str _ _ _ Hsplit) as (s & -> & _).
  destruct (Threshold.confidences s) as [vs | ] eqn:Hvs.
  - right. exists s, vs. split; [reflexivity | ]. split; [exact Hvs | ].
    rewrite (ThresholdFacts.handler_run event context s vs Hget Hvs) in Hrun.
    destruct (existsb Threshold.above vs).
    + destruct (json_dumps event) as [body | e0] eqn:Hbody; [discriminate | ].
      injection Hrun as <-. exact (json_dumps_raise_kind _ _ Hbody).
    + injection Hrun as <-. reflexivity.
  - left. exists s. split; [reflexivity | ]. split; [exact Hvs | ].
    destruct (ThresholdMore.handler_malformed event context s Hget Hvs)
      as (e' & He' & Hk).
    rewrite He' in Hrun. injection Hrun as <-. exact Hk.
Qed.

(** X2. The threshold handler raises an [IndexError] or a [ValueError]
    exactly when the inferences field is a string with an entry that
    has no second field or whose second field [float] cannot read: one
    such entry aborts the handler whatever the other entries hold. *)
Theorem threshold_malformed_iff (event context : PyVal) :
  (exists e, Threshold.lambda_handler event context = Raise e
             /\ (exn_kind e = IndexError \/ exn_kind e = ValueError))
  <-> exists s, getitem event "inferences" = Return (PStr s)
                /\ Threshold.confidences s = None.
Proof.
  split.
  - intros (e & Hrun & Hk).
    destruct (threshold_raise_cases event context e Hrun)
      as [Hget | [(v & Hget & Hsplit) | [(s & Hget & Hnone & _)
         | (s & vs & Hget & Hvs & Hty)]]].
    + destruct (getitem_raise_kind _ _ _ Hget) as [[Hk' _] | [Hk' _]];
        rewrite Hk' in Hk; destruct Hk; discriminate.
    + destruct (py_split_raise_kind _ _ _ Hsplit) as [_ [Hk' | Hk']];
        rewrite Hk' in Hk; destruct Hk; discriminate.
    + eauto.
    + rewrite Hty in Hk. destruct Hk; discriminate.
  - intros (s & Hget & Hnone).
    exact (ThresholdMore.handler_malformed event context s Hget Hnone).
Qed.

(** X3. The threshold handler raises a [KeyError] exactly when the
    event is a dict without the key [inferences]. *)
Theorem threshold_key_error_iff (event context : PyVal) :
  (exists e, Threshold.lambda_handler event context = Raise e
             /\ exn_kind e = KeyError)
  <-> exists d, event = PDict d /\ dict_get d "inferences" = None.
Proof.
  split.
  - intros (e & Hrun & Hk).
    destruct (threshold_raise_cases event context e Hrun)
      as [Hget | [(v & Hget & Hsplit) | [(s & Hget & Hnone & Hk')
         | (s & vs & Hget & Hvs & Hty)]]].
    + destruct (getitem_raise_kind _ _ _ Hget) as [[_ Hd] | [Hk' _]];
        [exact Hd | congruence].
    + destruct (py_split_raise_kind _ _ _ Hsplit) as [_ [Hk' | Hk']];
        congruence.
    + destruct Hk'; congruence.
    + congruence.
  - intros (d & -> & Hnone). eexists.
    unfold Threshold.lambda_handler. simpl. rewrite Hnone. simpl.
    split; reflexivity.
Qed.

Lemma float_ge_false_iff (v t : spec_float) :
  t <> S754_nan ->
  (float_ge v t = false <-> v = S754_nan \/ float_lt v t = true).
Proof.
  intros Ht. unfold float_ge, float_lt, SFleb, SFltb.
  rewrite (SFcompare_antisym v t).
  destruct (SFcompare v t) as [[ | | ] | ] eqn:E; simpl.
  - split; [discriminate | intros [-> | H]; discriminate].
  - split; [right; reflexivity | reflexivity].
  - split; [discriminate | intros [-> | H]; discriminate].
  - split; [ | reflexivity]. intros _. left.
    destruct v, t; simpl in E; try discriminate; try reflexivity;
      exfalso; apply Ht; reflexivity.
Qed.

(** X4. On a JSON event whose entries all parse, the threshold handler
    raises exactly when every value is a NaN or below the threshold: a
    NaN never counts as confident. *)
Theorem threshold_raises_iff_nan_or_below (event context : PyVal)
  (s : string) (vs : list spec_float) :
  is_json event = true ->
  getitem event "inferences" = Return (PStr s) ->
  Threshold.confidences s = Some vs ->
  ((exists e, Threshold.lambda_handler event context = Raise e)
   <-> forall v, In v vs ->
                 v = S754_nan \/ float_lt v Threshold.THRESHOLD = true).
Proof.
  intros Hjson Hget Hvs.
  rewrite (ThresholdFacts.handler_run event context s vs Hget Hvs).
  destruct (json_dumps_total event Hjson) as [body ->].
  assert (Hnan : Threshold.THRESHOLD <> S754_nan) by discriminate.
  destruct (existsb Threshold.above vs) eqn:Hex; split.
  - intros [e He]. discriminate.
  - intros Hall. apply existsb_exists in Hex. destruct Hex as (v & Hin & Hv).
    apply (float_ge_false_iff v _ Hnan) in Hall; [ | exact Hin].
    unfold Threshold.above in Hv. congruence.
  - intros _ v Hin. apply (float_ge_false_iff v _ Hnan).
    destruct (float_ge v Threshold.THRESHOLD) eqn:E; [ | reflexivity].
    assert (Ht : existsb Threshold.above vs = true)
      by (apply existsb_exists; exists v; split; assumption).
    congruence.
  - intros _. eexists. reflexivity.
Qed.

Lemma threshold_raises_iff_nan_or_below_witness :
  is_json (PDict [("inferences", PStr "bicycle:nan,motorcycle:0.35")]) = true
  /\ getitem (PDict [("inferences", PStr "bicycle:nan,motorcycle:0.35")])
       "inferences"
     = Return (PStr "bicycle:nan,motorcycle:0.35")
  /\ Threshold.confidences "bicycle:nan,motorcycle:0.35"
     = Some [S754_nan; Samples.dec 35 (-2)]
  /\ exists e,
       Threshold.lambda_handler
         (PDict [("inferences", PStr "bicycle:nan,motorcycle:0.35")]) PNone
       = Raise e.
Proof.
  split; [reflexivity | ]. split; [reflexivity | ].
  assert (H3 : Threshold.confidences "bicycle:nan,motorcycle:0.35"
               = Some [S754_nan; Samples.dec 35 (-2)])
    by (vm_compute; reflexivity).
  split; [exact H3 | ].
  apply (threshold_raises_iff_nan_or_below
           (PDict [("inferences", PStr "bicycle:nan,motorcycle:0.35")])
           PNone _ _ eq_refl eq_refl H3).
  intros v [<- | [<- | []]]; [left; reflexivity | right; vm_compute; reflexivity].
Defined.

(** X5. The comparison is inclusive: an event with a value equal to
    [THRESHOLD] is passed on with status code 200. *)
Theorem threshold_boundary_inclusive (event context : PyVal) (s : string)
  (vs : list spec_float) :
  is_json event = true ->
  getitem event "inferences" = Return (PStr s) ->
  Threshold.confidences s = Some vs ->
  In Threshold.THRESHOLD vs ->
  exists r, Threshold.lambda_handler event context = Return r
            /\ getitem r "statusCode" = Return (PInt 200).
Proof.
  intros Hjson Hget Hvs Hin.
  rewrite (ThresholdFacts.handler_run event context s vs Hget Hvs).
  rewrite ThresholdFacts.some_above.
  - destruct (json_dumps_total event Hjson) as [body ->].
    eexists. split; reflexivity.
  - exists Threshold.THRESHOLD. split; [exact Hin | reflexivity].
Qed.

Lemma threshold_boundary_inclusive_witness :
  is_json (PDict [("inferences", PStr "bicycle:0.70,motorcycle:0.30")]) = true
  /\ getitem (PDict [("inferences", PStr "bicycle:0.70,motorcycle:0.30")])
       "inferences"
     = Return (PStr "bicycle:0.70,motorcycle:0.30")
  /\ Threshold.confidences "bicycle:0.70,motorcycle:0.30"
     = Some [Threshold.THRESHOLD; Samples.dec 3 (-1)]
  /\ In Threshold.THRESHOLD [Threshold.THRESHOLD; Samples.dec 3 (-1)]
  /\ exists r,
       Threshold.lambda_handler
         (PDict [("inferences", PStr "bicycle:0.70,motorcycle:0.30")]) PNone
       = Return r
       /\ getitem r "statusCode" = Return (PInt 200).
Proof.
  split; [reflexivity | ]. split; [reflexivity | ].
  assert (H3 : Threshold.confidences "bicycle:0.70,motorcycle:0.30"
               = Some [Threshold.THRESHOLD; Samples.dec 3 (-1)])
    by (vm_compute; reflexivity).
  assert (H4 : In Threshold.THRESHOLD
                 [Threshold.THRESHOLD; Samples.dec 3 (-1)])
    by (left; reflexivity).
  split; [exact H3 | ]. split; [exact H4 | ].
  exact (threshold_boundary_inclusive
           (PDict [("inferences", PStr "bicycle:0.70,motorcycle:0.30")])
           PNone _ _ eq_refl eq_refl H3 H4).
Defined.

(** ** Entries without a colon, and with more than one *)

Lemma no_char_rev_onto (c : ascii) (a acc : string) :
  no_char c a = true -> no_char c acc = true ->
  no_char c (str_rev_onto a acc) = true.
Proof.
  revert acc. induction a as [ | x r IH]; intros acc Ha Hacc; simpl in *.
  - exact Hacc.
  - apply andb_prop in Ha. destruct Ha as [Hx Hr].
    apply IH; [exact Hr | ]. simpl. rewrite Hx, Hacc. reflexivity.
Qed.

Lemma split_acc_head (sep c : ascii) (s cur : string) :
  no_char c cur = true -> no_char c s = true ->
  exists x rest, split_acc sep cur s = x :: rest /\ no_char c x = true.
Proof.
  revert cur. induction s as [ | a r IH]; intros cur Hcur Hs; simpl in *.
  - eexists. eexists. split; [reflexivity | ].
    apply no_char_rev_onto; [exact Hcur | reflexivity].
  - apply andb_prop in Hs. destruct Hs as [Ha Hr].
    destruct (Ascii.eqb a sep).
    + eexists. eexists. split; [reflexivity | ].
      apply no_char_rev_onto; [exact Hcur | reflexivity].
    + apply IH; [ | exact Hr]. simpl. rewrite Ha, Hcur. reflexivity.
Qed.

Lemma split_no_sep (sep : ascii) (x : string) :
  no_char sep x = true -> str_split sep x = [x].
Proof.
  intros H. unfold str_split. rewrite (split_acc_piece _ _ _ H).
  unfold str_rev. rewrite str_rev_onto_twice. simpl.
  rewrite str_append_empty. reflexivity.
Qed.

(** X6. An inferences string without any colon, the empty string
    included, makes the threshold handler raise [IndexError]. *)
Theorem threshold_no_colon (event context : PyVal) (s : string) :
  getitem event "inferences" = Return (PStr s) ->
  no_char ":" s = true ->
  Threshold.lambda_handler event context
  = Raise (mkExn IndexError "list index out of range").
Proof.
  intros Hget Hno. unfold Threshold.lambda_handler. rewrite Hget. simpl.
  destruct (split_acc_head "," ":" s EmptyString eq_refl Hno)
    as (x & rest & Hsplit & Hx).
  unfold str_split. rewrite Hsplit. simpl.
  unfold Threshold.meets at 1. rewrite (split_no_sep ":" x Hx). reflexivity.
Qed.

Lemma threshold_no_colon_witness :
  getitem (PDict [("inferences", PStr EmptyString)]) "inferences"
  = Return (PStr EmptyString)
  /\ no_char ":" EmptyString = true
  /\ Threshold.lambda_handler (PDict [("inferences", PStr EmptyString)]) PNone
     = Raise (mkExn IndexError "list index out of range").
Proof.
  split; [reflexivity | ]. split; [reflexivity | ].
  exact (threshold_no_colon (PDict [("inferences", PStr EmptyString)]) PNone
           EmptyString eq_refl eq_refl).
Defined.

(** X7. Only the second colon-separated field of an entry is compared:
    whatever follows a second colon is ignored. *)
Theorem meets_ignores_third_field (label value rest : string) :
  no_char ":" label = true ->
  no_char ":" value = true ->
  Threshold.meets (label ++ String ":" (value ++ String ":" rest))
  = Threshold.meets (label ++ String ":" value).
Proof.
  intros Hl Hv. unfold Threshold.meets, str_split.
  rewrite !(split_acc_first _ _ _ _ Hl), (split_acc_first _ _ _ _ Hv),
    (split_acc_piece _ _ _ Hv).
  reflexivity.
Qed.

Lemma meets_ignores_third_field_witness :
  no_char ":" "bicycle" = true
  /\ no_char ":" "0.95" = true
  /\ Threshold.meets "bicycle:0.95:0.01" = Threshold.meets "bicycle:0.95".
Proof.
  split; [reflexivity | ]. split; [reflexivity | ].
  exact (meets_ignores_third_field "bicycle" "0.95" "0.01" eq_refl eq_refl).
Defined.

Section HandlerMore.
Context {W F : Type} `{s3 : Services W F}.

(** X10. A result of either of the first two handlers is not a JSON
    value: its [image_data] is a [bytes] object, on which [json.dumps]
    raises a [TypeError]. *)
Theorem handler_result_not_serializable (event context : PyVal) (w : W)
  (r : PyVal) (w' : W) :
  Serialize.lambda_handler event context w = (Return r, w')
  \/ Classifier.lambda_handler event context w = (Return r, w') ->
  is_json r = false
  /\ exists b, json_dumps r = Raise (not_serializable (PBytes b)).
Proof.
  intros Hrun.
  assert (Hs : Serialize.lambda_handler event context w = (Return r, w')).
  { destruct Hrun as [H | H]; [exact H | ].
    rewrite classifier_unfold in H. exact H. }
  destruct (serialize_returns event context w r w' Hs)
    as (key & bucket & f & data & w3 & keys & _ & _ & _ & _ & -> & _).
  split; [reflexivity | ]. exists (b64encode data). reflexivity.
Qed.

(** X11. When the serialize handler returns, the fetch, the opening and
    the read have succeeded, the status code is 200, [image_data] is the
    base64 text of the bytes that were read, and the world is the one
    after the file was closed and the keys of the event printed. *)
Theorem serialize_image_data (event context : PyVal) (w : W)
  (r : PyVal) (w' : W) :
  Serialize.lambda_handler event context w = (Return r, w') ->
  exists key bucket f data w3 keys body,
    ops_succeed key bucket w f data w3
    /\ dict_keys event = Return keys
    /\ w' = print [PStr "Event:"; keys] (file_close f w3)
    /\ getitem r "statusCode" = Return (PInt 200)
    /\ getitem r "body" = Return body
    /\ getitem body "image_data" = Return (PBytes (b64encode data)).
Proof.
  intros Hrun.
  destruct (serialize_returns event context w r w' Hrun)
    as (key & bucket & f & data & w3 & keys & _ & _ & Hops & Hkeys & -> & ->).
  exists key, bucket, f, data, w3, keys. eexists.
  split; [exact Hops | ]. split; [exact Hkeys | ].
  repeat split.
Qed.

(** X12. The threshold handler fails on every result of the serialize
    handler: with a [KeyError] on the result itself, which has no
    [inferences], and with an [AttributeError] on its body, whose
    [inferences] are a list. *)
Theorem serialize_then_threshold_fails (event context context' : PyVal)
  (w : W) (r : PyVal) (w' : W) :
  Serialize.lambda_handler event context w = (Return r, w') ->
  Threshold.lambda_handler r context' = Raise (mkExn KeyError "inferences")
  /\ exists body,
       getitem r "body" = Return body
       /\ Threshold.lambda_handler body context'
          = Raise (mkExn AttributeError
                     "'list' object has no attribute 'split'").
Proof.
  intros Hrun.
  destruct (serialize_returns event context w r w' Hrun)
    as (key & bucket & f & data & w3 & keys & _ & _ & _ & _ & -> & _).
  split; [reflexivity | ]. eexists. split; reflexivity.
Qed.

End HandlerMore.

Lemma memory_run :
  Serialize.lambda_handler (s3 := Memory.services)
    Memory.test_event PNone Memory.test_world
  = (Return (response Memory.test_key Memory.test_bucket
               (list_byte_of_string "PNG")),
     Memory.mkWorld (Memory.objects Memory.test_world)
       [("/tmp/image.png", list_byte_of_string "PNG")]
       [[PStr "Event:";
         PList [PStr "image_data"; PStr "s3_bucket"; PStr "s3_key"]]]).
Proof. reflexivity. Qed.

Lemma handler_result_not_serializable_witness :
  exists r w',
    Serialize.lambda_handler (s3 := Memory.services)
      Memory.test_event PNone Memory.test_world = (Return r, w')
    /\ is_json r = false
    /\ exists b, json_dumps r = Raise (not_serializable (PBytes b)).
Proof.
  eexists. eexists. split; [exact memory_run | ].
  exact (handler_result_not_serializable (s3 := Memory.services)
           _ _ _ _ _ (or_introl memory_run)).
Defined.

Lemma serialize_image_data_witness :
  exists r w',
    Serialize.lambda_handler (s3 := Memory.services)
      Memory.test_event PNone Memory.test_world = (Return r, w')
    /\ exists key bucket f data w3 keys body,
         ops_succeed (s3 := Memory.services) key bucket Memory.test_world
           f data w3
         /\ dict_keys Memory.test_event = Return keys
         /\ w' = print (Services := Memory.services) [PStr "Event:"; keys]
                   (file_close (Services := Memory.services) f w3)
         /\ getitem r "statusCode" = Return (PInt 200)
         /\ getitem r "body" = Return body
         /\ getitem body "image_data" = Return (PBytes (b64encode data)).
Proof.
  eexists. eexists. split; [exact memory_run | ].
  exact (serialize_image_data (s3 := Memory.services) _ _ _ _ _ memory_run).
Defined.

Lemma serialize_then_threshold_fails_witness :
  exists r w',
    Serialize.lambda_handler (s3 := Memory.services)
      Memory.test_event PNone Memory.test_world = (Return r, w')
    /\ Threshold.lambda_handler r PNone = Raise (mkExn KeyError "inferences")
    /\ exists body,
         getitem r "body" = Return body
         /\ Threshold.lambda_handler body PNone
            = Raise (mkExn AttributeError
                       "'list' object has no attribute 'split'").
Proof.
  eexists. eexists. split; [exact memory_run | ].
  exact (serialize_then_threshold_fails (s3 := Memory.services)
           _ _ PNone _ _ _ memory_run).
Defined.

(** ** Base64 *)

Ltac euclid := zify; Z.to_euclidean_division_equations; lia.

Lemma b64_index_char (n : N) :
  (n < 64)%N -> b64_index (b64_char n) = Some n.
Proof.
  intros Hn.
  assert (Hall : forallb
            (fun n => match b64_index (b64_char n) with
                      | Some m => N.eqb m n
                      | None => false
                      end)
            (map N.of_nat (seq 0 64)) = true) by (vm_compute; reflexivity).
  rewrite forallb_forall in Hall.
  assert (Hin : In n (map N.of_nat (seq 0 64))).
  { rewrite <- (N2Nat.id n). apply in_map, in_seq. lia. }
  specialize (Hall n Hin).
  destruct (b64_index (b64_char n)) as [m | ]; [ | discriminate].
  apply N.eqb_eq in Hall. congruence.
Qed.

Lemma b64_char_not_pad (n : N) :
  (n < 64)%N -> Byte.eqb (b64_char n) "="%byte = false.
Proof.
  intros Hn. destruct (Byte.eqb (b64_char n) "="%byte) eqn:E; [ | reflexivity].
  apply Byte.byte_dec_bl in E. pose proof (b64_index_char n Hn) as Hi.
  rewrite E in Hi. vm_compute in Hi. discriminate.
Qed.

Lemma byte_of_to_N (b : byte) : byte_of (Byte.to_N b) = b.
Proof. unfold byte_of. rewrite Byte.of_to_N. reflexivity. Qed.

Lemma by_triples (P : list byte -> Prop) :
  P [] -> (forall a, P [a]) -> (forall a b, P [a; b]) ->
  (forall a b c rest, P rest -> P (a :: b :: c :: rest)) ->
  forall l, P l.
Proof.
  intros H0 H1 H2 H3.
  fix go 1. intros [ | a [ | b [ | c rest]]].
  - exact H0.
  - apply H1.
  - apply H2.
  - apply H3. apply go.
Qed.

Lemma b64decode_encode (data : list byte) :
  b64decode (b64encode data) = Some data.
Proof.
  induction data as [ | a | a b | a b c rest IH] using by_triples.
  - reflexivity.
  - pose proof (Byte.to_N_bounded a) as Ha.
    cbn [b64encode b64decode].
    rewrite !b64_index_char by euclid. cbn.
    replace (Byte.to_N a / 4 * 4 + Byte.to_N a mod 4 * 16 / 16)%N
      with (Byte.to_N a) by euclid.
    rewrite byte_of_to_N. reflexivity.
  - pose proof (Byte.to_N_bounded a) as Ha.
    pose proof (Byte.to_N_bounded b) as Hb.
    cbn [b64encode b64decode].
    rewrite !b64_index_char by euclid.
    rewrite b64_char_not_pad by euclid. cbn.
    replace (Byte.to_N a / 4 * 4
             + (Byte.to_N a mod 4 * 16 + Byte.to_N b / 16) / 16)%N
      with (Byte.to_N a) by euclid.
    replace ((Byte.to_N a mod 4 * 16 + Byte.to_N b / 16) mod 16 * 16
             + Byte.to_N b mod 16 * 4 / 4)%N
      with (Byte.to_N b) by euclid.
    rewrite !byte_of_to_N. reflexivity.
  - pose proof (Byte.to_N_bounded a) as Ha.
    pose proof (Byte.to_N_bounded b) as Hb.
    pose proof (Byte.to_N_bounded c) as Hc.
    cbn [b64encode b64decode].
    rewrite !b64_index_char by euclid.
    rewrite b64_char_not_pad by euclid.
    rewrite IH.
    replace (Byte.to_N a / 4 * 4
             + (Byte.to_N a mod 4 * 16 + Byte.to_N b / 16) / 16)%N
      with (Byte.to_N a) by euclid.
    replace ((Byte.to_N a mod 4 * 16 + Byte.to_N b / 16) mod 16 * 16
             + (Byte.to_N b mod 16 * 4 + Byte.to_N c / 64) / 4)%N
      with (Byte.to_N b) by euclid.
    replace ((Byte.to_N b mod 16 * 4 + Byte.to_N c / 64) mod 4 * 64
             + Byte.to_N c mod 64)%N
      with (Byte.to_N c) by euclid.
    rewrite !byte_of_to_N. reflexivity.
Qed.

(** X13. [b64encode] loses nothing: two byte strings with the same
    encoding are equal. *)
Theorem b64encode_injective (a b : list byte) :
  b64encode a = b64encode b <-> a = b.
Proof.
  split; [ | intros ->; reflexivity].
  intros H. pose proof (b64decode_encode a) as Ha.
  rewrite H, b64decode_encode in Ha. congruence.
Qed.

(** X15. The base64 text has four characters for every three bytes,
    the last group padded. *)
Theorem b64encode_length (data : list byte) :
  Z.of_nat (List.length (b64encode data))
  = 4 * ((Z.of_nat (List.length data) + 2) / 3).
Proof.
  induction data as [ | a | a b | a b c rest IH] using by_triples.
  - reflexivity.
  - reflexivity.
  - reflexivity.
  - cbn [b64encode List.length]. rewrite !Nat2Z.inj_succ, IH.
    euclid.
Qed.

(** X16. The base64 text holds only characters of the alphabet and
    the padding character. *)
Theorem b64encode_alphabet (data : list byte) :
  forallb b64_text_char (b64encode data) = true.
Proof.
  assert (Hc : forall n, (n < 64)%N -> b64_text_char (b64_char n) = true).
  { intros n Hn. unfold b64_text_char. rewrite (b64_index_char n Hn).
    reflexivity. }
  induction data as [ | a | a b | a b c rest IH] using by_triples.
  - reflexivity.
  - pose proof (Byte.to_N_bounded a) as Ha.
    cbn [b64encode forallb]. rewrite !Hc by euclid. reflexivity.
  - pose proof (Byte.to_N_bounded a) as Ha.
    pose proof (Byte.to_N_bounded b) as Hb.
    cbn [b64encode forallb]. rewrite !Hc by euclid. reflexivity.
  - pose proof (Byte.to_N_bounded a) as Ha.
    pose proof (Byte.to_N_bounded b) as Hb.
    pose proof (Byte.to_N_bounded c) as Hcc.
    cbn [b64encode forallb]. rewrite !Hc by euclid. rewrite IH. reflexivity.
Qed.

(** ** Splitting and joining *)

Lemma str_append_assoc (a b c : string) : (a ++ b) ++ c = a ++ (b ++ c).
Proof. induction a as [ | x r IH]; simpl; congruence. Qed.

Lemma str_rev_onto_app (a acc : string) :
  str_rev_onto a acc = str_rev a ++ acc.
Proof.
  unfold str_rev. revert acc.
  induction a as [ | c r IH]; intros acc; simpl.
  - reflexivity.
  - rewrite (IH (String c acc)), (IH (String c EmptyString)).
    rewrite str_append_assoc. reflexivity.
Qed.

Lemma split_acc_nonempty (sep : ascii) (s cur : string) :
  split_acc sep cur s <> [].
Proof.
  revert cur. induction s as [ | c r IH]; intros cur; simpl.
  - discriminate.
  - destruct (Ascii.eqb c sep); [discriminate | apply IH].
Qed.

Lemma join_split_acc (sep : ascii) (s cur : string) :
  join (String sep EmptyString) (split_acc sep cur s) = str_rev cur ++ s.
Proof.
  revert cur. induction s as [ | c r IH]; intros cur; simpl.
  - rewrite str_append_empty. reflexivity.
  - destruct (Ascii.eqb c sep) eqn:E.
    + apply Ascii.eqb_eq in E. subst c.
      specialize (IH EmptyString).
      destruct (split_acc sep EmptyString r) as [ | y ys] eqn:Er.
      * exfalso. exact (split_acc_nonempty sep r EmptyString Er).
      * change (join (String sep EmptyString) (str_rev cur :: y :: ys))
          with (str_rev cur ++ String sep EmptyString
                ++ join (String sep EmptyString) (y :: ys)).
        rewrite IH. reflexivity.
    + rewrite IH. unfold str_rev. simpl.
      rewrite (str_rev_onto_app cur (String c EmptyString)).
      rewrite str_append_assoc. reflexivity.
Qed.

Lemma split_acc_pieces (sep : ascii) (s cur : string) :
  no_char sep cur = true ->
  Forall (fun x => no_char sep x = true) (split_acc sep cur s).
Proof.
  revert cur. induction s as [ | c r IH]; intros cur Hcur; simpl.
  - constructor; [ | constructor].
    apply no_char_rev_onto; [exact Hcur | reflexivity].
  - destruct (Ascii.eqb c sep) eqn:E.
    + constructor; [ | apply IH; reflexivity].
      apply no_char_rev_onto; [exact Hcur | reflexivity].
    + apply IH. simpl. rewrite E, Hcur. reflexivity.
Qed.

(** X17. The pieces of [s.split(sep)] hold no separator, and joined
    with the separator they give [s] back. *)
Theorem split_join (sep : ascii) (s : string) :
  join (String sep EmptyString) (str_split sep s) = s
  /\ Forall (fun x => no_char sep x = true) (str_split sep s).
Proof.
  split.
  - unfold str_split. rewrite join_split_acc. reflexivity.
  - apply split_acc_pieces. reflexivity.
Qed.

(** ** The serialized text is printable ASCII *)

Lemma all_printable_app (a b : string) :
  all_printable (a ++ b) = all_printable a && all_printable b.
Proof.
  induction a as [ | c r IH]; simpl; [reflexivity | ].
  rewrite IH, andb_assoc. reflexivity.
Qed.

Lemma all_printable_rev_onto (a acc : string) :
  all_printable (str_rev_onto a acc) = all_printable a && all_printable acc.
Proof.
  revert acc. induction a as [ | c r IH]; intros acc; simpl; [reflexivity | ].
  rewrite IH. simpl.
  destruct (printable c), (all_printable r), (all_printable acc); reflexivity.
Qed.

Lemma all_printable_drop_zeros (s : string) :
  all_printable s = true -> all_printable (drop_zeros s) = true.
Proof.
  induction s as [ | c r IH]; simpl; [reflexivity | ].
  intros H. apply andb_prop in H. destruct H as [Hc Hr].
  destruct c as [[ | ] [ | ] [ | ] [ | ] [ | ] [ | ] [ | ] [ | ]];
    try (vm_compute in Hc; discriminate); cbn [drop_zeros];
    first [apply IH; exact Hr
          | cbn [all_printable]; rewrite Hc, Hr; reflexivity].
Qed.

Lemma all_printable_take (n : nat) (s : string) :
  all_printable s = true -> all_printable (str_take n s) = true.
Proof.
  revert s. induction n as [ | n IH]; intros [ | c r]; simpl; try reflexivity.
  intros H. apply andb_prop in H. destruct H as [Hc Hr].
  rewrite Hc, (IH r Hr). reflexivity.
Qed.

Lemma all_printable_drop (n : nat) (s : string) :
  all_printable s = true -> all_printable (str_drop n s) = true.
Proof.
  revert s. induction n as [ | n IH]; intros [ | c r]; simpl; try reflexivity;
    intros H; [exact H | ].
  apply andb_prop in H. destruct H as [_ Hr]. exact (IH r Hr).
Qed.

Lemma all_printable_repeat (c : ascii) (n : nat) :
  printable c = true -> all_printable (repeat_char c n) = true.
Proof.
  intros Hc. induction n as [ | n IH]; simpl; [reflexivity | ].
  rewrite Hc, IH. reflexivity.
Qed.

Lemma all_printable_uint (d : Decimal.uint) :
  all_printable (NilEmpty.string_of_uint d) = true.
Proof. induction d; simpl; try rewrite IHd; reflexivity. Qed.

Lemma all_printable_str_of_Z (z : Z) : all_printable (str_of_Z z) = true.
Proof.
  unfold str_of_Z, NilZero.string_of_int, NilZero.string_of_uint.
  destruct (Z.to_int z) as [d | d]; destruct d; simpl;
    try rewrite all_printable_uint; reflexivity.
Qed.

Ltac printable_parts :=
  repeat (rewrite all_printable_app; apply andb_true_intro; split);
  try reflexivity.

Lemma all_printable_exponent (ex : Z) :
  all_printable (exponent_str ex) = true.
Proof.
  unfold exponent_str.
  destruct (ex <? 0), (Z.abs ex <? 10); printable_parts;
    apply all_printable_str_of_Z.
Qed.

Lemma all_printable_format (ds : string) (decpt : Z) :
  all_printable ds = true -> all_printable (format_repr ds decpt) = true.
Proof.
  intros Hds. unfold format_repr.
  destruct ((decpt <=? -4) || (16 <? decpt)).
  - destruct ds as [ | c [ | c' r]]; [reflexivity | | ].
    + simpl in *. rewrite andb_true_r in Hds. rewrite Hds. simpl.
      apply all_printable_exponent.
    + remember (String c' r) as r0 eqn:Er0. clear Er0.
      simpl in Hds. apply andb_prop in Hds. destruct Hds as [Hc Hr].
      cbn [all_printable]. rewrite Hc.
      rewrite !all_printable_app, Hr, all_printable_exponent. reflexivity.
  - destruct (decpt <=? 0).
    + printable_parts; [apply all_printable_repeat; reflexivity | exact Hds].
    + destruct (Z.of_nat (String.length ds) <=? decpt).
      * printable_parts; [exact Hds | apply all_printable_repeat; reflexivity].
      * printable_parts;
          [apply all_printable_take | apply all_printable_drop]; exact Hds.
Qed.

Lemma all_printable_float_repr (f : spec_float) :
  all_printable (float_repr f) = true.
Proof.
  destruct f as [s | s | | s m e]; simpl; try (destruct s; reflexivity);
    try reflexivity.
  destruct (shortest_digits m e) as [D q].
  assert (Hf : all_printable
                 (format_repr (strip_trailing_zeros (str_of_Z D))
                    (Z.of_nat (String.length (str_of_Z D)) + q)) = true).
  { apply all_printable_format. unfold strip_trailing_zeros, str_rev.
    rewrite all_printable_rev_onto, andb_true_r.
    apply all_printable_drop_zeros.
    rewrite all_printable_rev_onto, andb_true_r.
    apply all_printable_str_of_Z. }
  destruct s; [ | exact Hf].
  rewrite all_printable_app, Hf. reflexivity.
Qed.

Lemma all_printable_json_float (f : spec_float) :
  all_printable (json_float f) = true.
Proof.
  destruct f as [s | s | | s m e]; try (destruct s; reflexivity);
    try reflexivity.
  apply (all_printable_float_repr (S754_finite s m e)).
Qed.

Lemma all_printable_escape_char (c : ascii) :
  all_printable (json_escape_char c) = true.
Proof.
  destruct c as [[ | ] [ | ] [ | ] [ | ] [ | ] [ | ] [ | ] [ | ]];
    vm_compute; reflexivity.
Qed.

Lemma all_printable_json_string (s : string) :
  all_printable (json_string s) = true.
Proof.
  unfold json_string. cbn [all_printable].
  rewrite all_printable_app. simpl. rewrite andb_true_r.
  induction s as [ | c r IH]; simpl; [reflexivity | ].
  rewrite all_printable_app, all_printable_escape_char. exact IH.
Qed.

Lemma all_printable_join (sep : string) (l : list string) :
  all_printable sep = true ->
  Forall (fun x => all_printable x = true) l ->
  all_printable (join sep l) = true.
Proof.
  intros Hsep Hl. induction Hl as [ | x r Hx Hr IH]; [reflexivity | ].
  destruct r as [ | y ys]; [exact Hx | ].
  change (join sep (x :: y :: ys)) with (x ++ sep ++ join sep (y :: ys)).
  rewrite !all_printable_app, Hx, Hsep, IH. reflexivity.
Qed.

(** Every text that [json.dumps] returns is printable ASCII. *)
Lemma json_dumps_printable (v : PyVal) :
  forall s, json_dumps v = Return s -> all_printable s = true.
Proof.
  induction v as [ | b | z | f | t | b | l IH | d IH | x]
    using PyVal_nested_ind; simpl; intros s Hs; try discriminate;
    try (injection Hs as <-).
  - reflexivity.
  - destruct b; reflexivity.
  - apply all_printable_str_of_Z.
  - apply all_printable_json_float.
  - apply (all_printable_json_string t).
  - match type of Hs with
    | match ?go l with _ => _ end = _ =>
        assert (Hl : forall xs, go l = Return xs ->
                       Forall (fun x => all_printable x = true) xs)
    end.
    { clear Hs. induction IH as [ | x r Hx _ IHr]; simpl; intros xs Hxs.
      - injection Hxs as <-. constructor.
      - destruct (json_dumps x) as [a | e0] eqn:Ex; [ | discriminate].
        match type of Hxs with
        | match ?g with _ => _ end = _ => destruct g as [ys | e1] eqn:Er
        end; [ | discriminate].
        injection Hxs as <-. constructor; [apply Hx | apply IHr]; reflexivity. }
    match type of Hs with
    | match ?g with _ => _ end = _ => destruct g as [xs | e1] eqn:Er
    end; [ | discriminate].
    injection Hs as <-.
    assert (Hj : all_printable (join ", " xs) = true)
      by (apply all_printable_join; [reflexivity | apply Hl; reflexivity]).
    cbn [all_printable append]. rewrite all_printable_app, Hj. reflexivity.
  - match type of Hs with
    | match ?go d with _ => _ end = _ =>
        assert (Hd : forall xs, go d = Return xs ->
                       Forall (fun x => all_printable x = true) xs)
    end.
    { clear Hs. induction IH as [ | [k x] r Hx _ IHr]; simpl; intros xs Hxs.
      - injection Hxs as <-. constructor.
      - simpl in Hx.
        destruct (json_dumps x) as [a | e0] eqn:Ex; [ | discriminate].
        match type of Hxs with
        | match ?g with _ => _ end = _ => destruct g as [ys | e1] eqn:Er
        end; [ | discriminate].
        injection Hxs as <-. constructor; [ | apply IHr; reflexivity].
        change (all_printable (json_string k ++ ": " ++ a) = true).
        rewrite !all_printable_app, all_printable_json_string,
          (Hx a eq_refl).
        reflexivity. }
    match type of Hs with
    | match ?g with _ => _ end = _ => destruct g as [xs | e1] eqn:Er
    end; [ | discriminate].
    injection Hs as <-.
    assert (Hj : all_printable (join ", " xs) = true)
      by (apply all_printable_join; [reflexivity | apply Hd; reflexivity]).
    cbn [all_printable append]. rewrite all_printable_app, Hj. reflexivity.
Qed.

(** X8. Whether the threshold handler passes a JSON event on depends
    on its inferences field alone, not on the other fields or on the
    context. *)
Theorem threshold_decision_depends_on_inferences
  (event1 context1 event2 context2 : PyVal) :
  is_json event1 = true ->
  is_json event2 = true ->
  getitem event1 "inferences" = getitem event2 "inferences" ->
  ((exists r, Threshold.lambda_handler event1 context1 = Return r)
   <-> (exists r, Threshold.lambda_handler event2 context2 = Return r)).
Proof.
  assert (Hone : forall ea ca eb cb,
             is_json eb = true ->
             getitem ea "inferences" = getitem eb "inferences" ->
             (exists r, Threshold.lambda_handler ea ca = Return r) ->
             exists r, Threshold.lambda_handler eb cb = Return r).
  { intros ea ca eb cb Hjson Hsame [r Hrun].
    destruct (ThresholdMore.returns_inv ea ca r Hrun)
      as (s & vs & body & Hget & Hvs & Hex & _ & _).
    rewrite Hsame in Hget.
    rewrite (ThresholdFacts.handler_run eb cb s vs Hget Hvs), Hex.
    destruct (json_dumps_total eb Hjson) as [body' ->]. eauto. }
  intros H1 H2 Hsame. split.
  - apply Hone; assumption.
  - apply Hone; [assumption | symmetry; assumption].
Qed.

Lemma threshold_decision_depends_on_inferences_witness :
  is_json Samples.confident = true
  /\ is_json (PDict [("inferences", PStr "bicycle:0.95,motorcycle:0.05")])
     = true
  /\ getitem Samples.confident "inferences"
     = getitem (PDict [("inferences", PStr "bicycle:0.95,motorcycle:0.05")])
         "inferences"
  /\ ((exists r, Threshold.lambda_handler Samples.confident PNone = Return r)
      <-> (exists r,
             Threshold.lambda_handler
               (PDict [("inferences", PStr "bicycle:0.95,motorcycle:0.05")])
               (PInt 1) = Return r)).
Proof.
  split; [reflexivity | ]. split; [reflexivity | ]. split; [reflexivity | ].
  exact (threshold_decision_depends_on_inferences Samples.confident PNone
           (PDict [("inferences", PStr "bicycle:0.95,motorcycle:0.05")])
           (PInt 1) eq_refl eq_refl eq_refl).
Defined.

(** X9. The body that the threshold handler returns is printable
    ASCII: every other character of the event is escaped. *)
Theorem threshold_body_printable (event context r : PyVal) :
  Threshold.lambda_handler event context = Return r ->
  exists body,
    getitem r "body" = Return (PStr body)
    /\ all_printable body = true.
Proof.
  intros Hrun.
  destruct (ThresholdMore.returns_inv event context r Hrun)
    as (s & vs & body & _ & _ & _ & Hbody & ->).
  exists body. split; [reflexivity | ].
  exact (json_dumps_printable event body Hbody).
Qed.

Lemma threshold_body_printable_witness :
  exists r,
    Threshold.lambda_handler
      (PDict [("inferences", PStr "bicycle:0.95");
              ("note", PStr (String "233" (String "010" EmptyString)))])
      PNone = Return r
    /\ exists body,
         getitem r "body" = Return (PStr body)
         /\ all_printable body = true.
Proof.
  eexists.
  assert (H : Threshold.lambda_handler
                (PDict [("inferences", PStr "bicycle:0.95");
                        ("note",
                         PStr (String "233" (String "010" EmptyString)))])
                PNone
              = Return
                  (PDict [("statusCode", PInt 200);
                          ("body",
                           PStr (String "{"
                             (json_string "inferences" ++ ": "
                              ++ json_string "bicycle:0.95" ++ ", "
                              ++ json_string "note" ++ ": "
                              ++ json_string
                                   (String "233" (String "010" EmptyString))
                              ++ "}")))]))
    by (vm_compute; reflexivity).
  split; [exact H | ].
  exact (threshold_body_printable _ _ _ H).
Defined.

(** X14. Reading the base64 text of [b64encode] back gives the bytes
    that were encoded. *)
Theorem b64_round_trip (data : list byte) :
  b64decode (b64encode data) = Some data.
Proof. exact (b64decode_encode data). Qed.
